(** * BMAD workflow resolution, artifact store and story parser

    A shallow embedding of [apps/backend/bmad/config.py],
    [apps/backend/bmad/workflows.py], [apps/backend/bmad/artifacts.py] and
    [apps/backend/bmad/personas.py], and of the file paths of
    [apps/backend/spec/phases/bmad_phases.py], with the properties the
    design document states about them and further properties of the code.

    Conventions of the embedding.
    - A Python [str] is a Rocq [string]; a character is read as the code
      point of the same number, so the strings covered are those over
      U+0000..U+00FF.  The [str] methods the code calls are defined in
      [PyStr] with Python's behaviour on that range.
    - A Python [int] is a [Z].
    - A [dict] with string keys is a [gmap string _]; the keys of a YAML
      mapping are strings.
    - Code that can raise returns a [result]; the exception is named.
    - A path is the list of its components, and [/] joins one component;
      a file holds the text written to it, and reading is in text mode:
      CR LF and CR are read as LF.
    - [datetime.now], [json.dumps] and [yaml.safe_load] are parameters of
      the functions that call them. *)

From Stdlib Require Import ZArith Ascii String List Numbers.DecimalString.
From stdpp Require Import gmap strings list sorting.

Local Open Scope string_scope.
Local Open Scope list_scope.
Local Set Warnings "-register-all".

(** ** Python string methods *)

Module PyStr.

(** [str.isspace] on one character: U+0009..U+000D, U+001C..U+0020,
    U+0085 and U+00A0. *)
Definition isspace (c : ascii) : bool :=
  let n := N_of_ascii c in
  ((9 <=? n) && (n <=? 13) || (28 <=? n) && (n <=? 32)
   || (n =? 133) || (n =? 160))%N.

(** The line boundaries of [str.splitlines]: LF, VT, FF, CR, FS, GS, RS
    and NEL (CR LF counts as one boundary, see [splitlines_from]). *)
Definition is_linebreak (c : ascii) : bool :=
  let n := N_of_ascii c in
  ((10 <=? n) && (n <=? 13) || (28 <=? n) && (n <=? 30) || (n =? 133))%N.

(** [str.lower] on one character: A..Z and the capital letters of
    U+00C0..U+00DE (all but the multiplication sign U+00D7). *)
Definition lower_char (c : ascii) : ascii :=
  let n := N_of_ascii c in
  if ((65 <=? n) && (n <=? 90)
      || (192 <=? n) && (n <=? 222) && negb (n =? 215))%N
  then ascii_of_N (n + 32) else c.

Fixpoint lower (s : string) : string :=
  match s with
  | EmptyString => EmptyString
  | String c t => String (lower_char c) (lower t)
  end.

(** [s.lstrip(chars)] and [s.rstrip(chars)], the character set given as a
    predicate. *)
Fixpoint lstrip_by (p : ascii -> bool) (s : string) : string :=
  match s with
  | EmptyString => EmptyString
  | String c t => if p c then lstrip_by p t else s
  end.

Fixpoint rstrip_by (p : ascii -> bool) (s : string) : string :=
  match s with
  | EmptyString => EmptyString
  | String c t =>
      match rstrip_by p t with
      | EmptyString => if p c then EmptyString else String c EmptyString
      | t' => String c t'
      end
  end.

(** [s.strip()] *)
Definition strip (s : string) : string :=
  rstrip_by isspace (lstrip_by isspace s).

(** [c in chars] for a literal set of characters *)
Definition char_in (chars : string) (c : ascii) : bool :=
  bool_decide (c ∈ list_ascii_of_string chars).

(** [s.lstrip(chars)] *)
Definition lstrip (chars : string) (s : string) : string :=
  lstrip_by (char_in chars) s.

(** [s.startswith(p)] *)
Definition startswith (s p : string) : bool := String.prefix p s.

(** [s.startswith((p1, ..., pn))] *)
Definition startswith_any (s : string) (ps : list string) : bool :=
  existsb (startswith s) ps.

(** [needle in hay] *)
Fixpoint contains (needle hay : string) : bool :=
  String.prefix needle hay ||
  match hay with
  | EmptyString => false
  | String _ t => contains needle t
  end.

(** [sep.join(parts)] *)
Definition join (sep : string) (parts : list string) : string :=
  String.concat sep parts.

(** [s.splitlines()]: [cur] holds the characters of the line being read,
    last one first.  A boundary closes the line, also an empty one; the
    end of the text closes it only when it is not empty. *)
Fixpoint splitlines_from (cur : string) (s : string) : list string :=
  match s with
  | EmptyString =>
      match cur with
      | EmptyString => []
      | _ => [String.rev cur]
      end
  | String c t =>
      if is_linebreak c then
        match t with
        | String c' t' =>
            if (N_of_ascii c =? 13)%N && (N_of_ascii c' =? 10)%N
            then String.rev cur :: splitlines_from EmptyString t'
            else String.rev cur :: splitlines_from EmptyString t
        | EmptyString => String.rev cur :: splitlines_from EmptyString t
        end
      else splitlines_from (String c cur) t
  end.

Definition splitlines (s : string) : list string :=
  splitlines_from EmptyString s.

(** [s[n:]] *)
Fixpoint slice_from (n : nat) (s : string) : string :=
  match n, s with
  | S n', String _ t => slice_from n' t
  | _, _ => s
  end.

(** What reading in text mode makes of the text of a file: every CR LF
    and every other CR becomes LF. *)
Fixpoint universal_newlines (s : string) : string :=
  match s with
  | EmptyString => EmptyString
  | String c t =>
      if (N_of_ascii c =? 13)%N then
        match t with
        | String c' t' =>
            if (N_of_ascii c' =? 10)%N
            then String "010"%char (universal_newlines t')
            else String "010"%char (universal_newlines t)
        | EmptyString => String "010"%char (universal_newlines t)
        end
      else String c (universal_newlines t)
  end.

(** Truth value of a [str] *)
Definition truthy (s : string) : bool :=
  match s with EmptyString => false | _ => true end.

(** [format(n, "03d")]: decimal, zero-padded to width 3, the sign
    counted in the width. *)
Definition decimal (n : N) : string :=
  NilEmpty.string_of_uint (N.to_uint n).

Definition zfill (width : nat) (digits : string) : string :=
  String.concat "" (repeat "0" (width - String.length digits)) +:+ digits.

Definition format_03d (n : Z) : string :=
  if (n <? 0)%Z then "-" +:+ zfill 2 (decimal (Z.abs_N n))
  else zfill 3 (decimal (Z.to_N n)).

End PyStr.

Import PyStr.


(** ** Exceptions *)

Inductive exn :=
| ValueError | TypeError | YAMLError
| FileNotFoundError | FileExistsError | NotADirectoryError | IsADirectoryError.

Inductive result (A : Type) :=
| Ok (a : A)
| Raise (e : exn).
Arguments Ok {A} a.
Arguments Raise {A} e.

Definition bind {A B : Type} (r : result A) (k : A -> result B) : result B :=
  match r with
  | Ok a => k a
  | Raise e => Raise e
  end.

Notation "'let*' x ':=' r 'in' k" := (bind r (fun x => k))
  (at level 10, x pattern, r at level 100, k at level 200).

(** ** Paths *)

(** A [pathlib] path is the list of its components.  [p / s] is modelled
    for an [s] that holds no separator: an empty [s] and ["."] name [p]
    itself, as [pathlib] drops them, and [".."] is kept as a component. *)
Abbreviation path := (list string).

Definition joinpath (p : path) (s : string) : path :=
  if bool_decide (s = "") || bool_decide (s = ".") then p else p ++ [s].

(** [p.name] *)
Definition name (p : path) : string := default "" (last p).

(** [name.endswith(suffix)], which is what the pattern [*<suffix>] asks *)
Fixpoint ends_with (suffix s : string) : bool :=
  bool_decide (s = suffix) ||
  match s with
  | EmptyString => false
  | String _ t => ends_with suffix t
  end.

(** ** config.py *)

Module Config.

Definition BMAD_ARTIFACTS_SUBDIR : string := "bmad".

Definition PHASE_WORKFLOW_MAP : gmap string (string * string) :=
  list_to_map
    [ ("product_brief", ("1-analysis", "create-product-brief"));
      ("research", ("1-analysis", "research"));
      ("prd", ("2-planning", "create-prd"));
      ("ux_design", ("2-planning", "create-ux-design"));
      ("architecture", ("3-solutioning", "create-architecture"));
      ("epics_stories", ("3-solutioning", "create-epics-and-stories"));
      ("implementation_readiness",
        ("3-solutioning", "check-implementation-readiness"));
      ("sprint_planning", ("4-implementation", "sprint-planning"));
      ("create_story", ("4-implementation", "create-story"));
      ("dev_story", ("4-implementation", "dev-story"));
      ("code_review", ("4-implementation", "code-review"));
      ("quick_spec", ("quick-flow", "quick-spec"));
      ("quick_dev", ("quick-flow", "quick-dev")) ].

End Config.

(** ** workflows.py *)

Module Workflows.

(** The file tree the loader reads.  A directory holds its entries in the
    order the operating system enumerates them, which is the order in
    which [Path.glob] yields its matches.  The tree holds directories and
    files of UTF-8 text: symbolic links and files that do not decode are
    left out. *)
Inductive node :=
| File (content : string)
| Dir (entries : list (string * node)).

Fixpoint find_entry (s : string) (es : list (string * node)) : option node :=
  match es with
  | [] => None
  | (n, x) :: rest => if bool_decide (n = s) then Some x else find_entry s rest
  end.

(** Path resolution from [cur]; [up] holds the ancestors of [cur], the
    nearest first, and the parent of the root is the root. *)
Fixpoint walk (up : list node) (cur : node) (p : path) : option node :=
  match p with
  | [] => Some cur
  | s :: rest =>
      match cur with
      | File _ => None
      | Dir es =>
          if bool_decide (s = "..") then
            match up with
            | [] => walk [] cur rest
            | parent :: up' => walk up' parent rest
            end
          else
            match find_entry s es with
            | Some x => walk (cur :: up) x rest
            | None => None
            end
      end
  end.

Definition stat (fs : node) (p : path) : option node := walk [] fs p.

(** [p.exists()], [p.is_dir()], [p.read_text(encoding="utf-8")]; reading
    is in text mode, which translates the line ends. *)
Definition exists_ (fs : node) (p : path) : bool :=
  match stat fs p with Some _ => true | None => false end.

Definition is_dir (fs : node) (p : path) : bool :=
  match stat fs p with Some (Dir _) => true | _ => false end.

Definition read_text (fs : node) (p : path) : result string :=
  match stat fs p with
  | Some (File c) => Ok (universal_newlines c)
  | Some (Dir _) => Raise IsADirectoryError
  | None => Raise FileNotFoundError
  end.

(** The pattern [*<key>*<ext>] on one name, for [key] and [ext] without
    wildcard characters: [key] occurs somewhere, and what follows that
    occurrence ends with [ext]. *)
Fixpoint glob_match (key ext : string) (n : string) : bool :=
  String.prefix key n && ends_with ext (slice_from (String.length key) n) ||
  match n with
  | EmptyString => false
  | String _ t => glob_match key ext t
  end.

(** [list(d.glob(f"*{key}*{ext}"))]: the matching entries of [d], in the
    order of enumeration. *)
Definition glob (fs : node) (d : path) (key ext : string) : list path :=
  match stat fs d with
  | Some (Dir es) =>
      map (fun n => d ++ [n]) (List.filter (glob_match key ext) (map fst es))
  | _ => []
  end.

(** What [yaml.safe_load] returns (floats left out). *)
Inductive yaml_value :=
| YNull
| YBool (b : bool)
| YInt (n : Z)
| YStr (s : string)
| YSeq (items : list yaml_value)
| YMap (items : list (string * yaml_value)).

Definition yaml_truthy (v : yaml_value) : bool :=
  match v with
  | YNull => false
  | YBool b => b
  | YInt n => negb (n =? 0)%Z
  | YStr s => truthy s
  | YSeq items => match items with [] => false | _ => true end
  | YMap items => match items with [] => false | _ => true end
  end.

(** The values of the dict that [load_workflow] returns: [Path] objects
    and loaded data ([None] is [PData YNull], a [str] is [PData (YStr _)]). *)
Inductive pyval :=
| PPath (p : path)
| PData (v : yaml_value).

Definition PNone : pyval := PData YNull.

Definition of_optional_path (o : option path) : pyval :=
  match o with Some p => PPath p | None => PNone end.

(** The keys of a mapping in the order in which a [dict] holds them: each
    key where it comes first. *)
Definition first_keys (items : list (string * yaml_value)) : list string :=
  rev (remove_dups (rev (map fst items))).

(** One element of the sequence given to [dict.update]: it has to be a
    sequence of length two, the key and the value.  A [str] is the
    sequence of its characters and a mapping that of its keys; a list or a
    mapping cannot be a key; a key that is no [str] makes an entry that no
    [str] key reads, which the dict of this model leaves out. *)
Definition update_pair (e : yaml_value) : result (option (string * yaml_value)) :=
  match e with
  | YNull | YBool _ | YInt _ => Raise TypeError
  | YStr s =>
      match s with
      | String a (String b EmptyString) =>
          Ok (Some (String a EmptyString, YStr (String b EmptyString)))
      | _ => Raise ValueError
      end
  | YSeq [k; v] =>
      match k with
      | YStr ks => Ok (Some (ks, v))
      | YSeq _ | YMap _ => Raise TypeError
      | _ => Ok None
      end
  | YSeq _ => Raise ValueError
  | YMap items =>
      match first_keys items with
      | [k1; k2] => Ok (Some (k1, YStr k2))
      | _ => Raise ValueError
      end
  end.

Fixpoint update_pairs (d : gmap string pyval) (elements : list yaml_value)
  : result (gmap string pyval) :=
  match elements with
  | [] => Ok d
  | e :: rest =>
      let* kv := update_pair e in
      update_pairs
        (match kv with Some (k, v) => <[k := PData v]> d | None => d end) rest
  end.

(** [result.update(parsed)]: the keys of a mapping are inserted in turn;
    a sequence is taken as a sequence of pairs, a [str] as the sequence of
    its characters, and any other value raises. *)
Definition dict_update (d : gmap string pyval) (parsed : yaml_value)
  : result (gmap string pyval) :=
  match parsed with
  | YMap items => Ok (fold_left (fun m kv => <[kv.1 := PData kv.2]> m) items d)
  | YSeq elements => update_pairs d elements
  | YStr s => update_pairs d (map (fun c => YStr (String c EmptyString))
                                  (list_ascii_of_string s))
  | YNull | YBool _ | YInt _ => Raise TypeError
  end.

(** [ref.rsplit("/", 1)[-1]] *)
Fixpoint rsplit_last (s : string) : string :=
  match s with
  | EmptyString => EmptyString
  | String c t =>
      if contains "/" t then rsplit_last t
      else if bool_decide (c = "/"%char) then t else s
  end.

Definition convention_names (key : string) : list string :=
  if bool_decide (key = "instructions") then ["instructions.xml"; "instructions.md"]
  else if bool_decide (key = "validation") then ["checklist.md"; "validation.md"]
  else if bool_decide (key = "checklist") then ["checklist.md"]
  else if bool_decide (key = "template") then ["template.md"]
  else [].

Section Resolve.

Variable fs : node.
Variable workflow_dir : path.

(** First loop of [_resolve_ref]: the keys of the loaded data. *)
Fixpoint resolve_yaml_keys (data : gmap string pyval) (keys : list string)
  : option path :=
  match keys with
  | [] => None
  | key :: rest =>
      match data !! key with
      | Some (PData (YStr ref)) =>
          if truthy ref then
            let filename := if contains "/" ref then rsplit_last ref else ref in
            let candidate := joinpath workflow_dir filename in
            if exists_ fs candidate then Some candidate
            else resolve_yaml_keys data rest
          else resolve_yaml_keys data rest
      | _ => resolve_yaml_keys data rest
      end
  end.

(** Second loop: the conventional file names of each key. *)
Fixpoint first_existing (names : list string) : option path :=
  match names with
  | [] => None
  | n :: rest =>
      let candidate := joinpath workflow_dir n in
      if exists_ fs candidate then Some candidate else first_existing rest
  end.

Fixpoint resolve_convention (keys : list string) : option path :=
  match keys with
  | [] => None
  | key :: rest =>
      match first_existing (convention_names key) with
      | Some p => Some p
      | None => resolve_convention rest
      end
  end.

(** Third loop: the patterns [*<key>*.md] and [*<key>*.xml] of each key;
    the first pattern with a match gives [matches[0]]. *)
Fixpoint first_glob (key : string) (exts : list string) : option path :=
  match exts with
  | [] => None
  | ext :: rest =>
      match glob fs workflow_dir key ext with
      | p :: _ => Some p
      | [] => first_glob key rest
      end
  end.

Fixpoint resolve_glob (keys : list string) : option path :=
  match keys with
  | [] => None
  | key :: rest =>
      match first_glob key [".md"; ".xml"] with
      | Some p => Some p
      | None => resolve_glob rest
      end
  end.

Definition _resolve_ref (data : gmap string pyval) (keys : list string)
  : option path :=
  match resolve_yaml_keys data keys with
  | Some p => Some p
  | None =>
      match resolve_convention keys with
      | Some p => Some p
      | None => resolve_glob keys
      end
  end.

End Resolve.

Section Load.

(** [yaml.safe_load], and the root of the workflows shipped with the
    package. *)
Variable yaml_safe_load : string -> result yaml_value.
Variable BMAD_WORKFLOWS_DIR : path.

(** Lines 47 to 60 of [load_workflow]: the workflow directory. *)
Definition resolve_workflow_dir (fs : node) (phase : string)
    (workflow_name : option string) (workflows_dir : option path)
  : result path :=
  let base := default BMAD_WORKFLOWS_DIR workflows_dir in
  let '(phase_dir, workflow_name) :=
    match workflow_name, Config.PHASE_WORKFLOW_MAP !! phase with
    | None, Some (d, n) => (d, Some n)
    | _, _ => (phase, workflow_name)
    end in
  match workflow_name with
  | None => Raise ValueError
  | Some wn =>
      let workflow_dir := joinpath (joinpath base phase_dir) wn in
      if is_dir fs workflow_dir then Ok workflow_dir
      else Raise FileNotFoundError
  end.

(** Lines 63 to 73: the definition file merged into the result. *)
Definition load_definition (fs : node) (workflow_dir : path)
  : result (gmap string pyval) :=
  let result : gmap string pyval := {[ "workflow_dir" := PPath workflow_dir ]} in
  let yaml_file := joinpath workflow_dir "workflow.yaml" in
  let md_file := joinpath workflow_dir "workflow.md" in
  if exists_ fs yaml_file then
    let* raw := read_text fs yaml_file in
    let* doc := yaml_safe_load raw in
    let parsed := if yaml_truthy doc then doc else YMap [] in
    dict_update result parsed
  else if exists_ fs md_file then
    let* content := read_text fs md_file in
    Ok (<["workflow_content" := PData (YStr content)]> result)
  else Ok result.

Definition load_workflow (fs : node) (phase : string)
    (workflow_name : option string) (workflows_dir : option path)
  : result (gmap string pyval) :=
  let* workflow_dir := resolve_workflow_dir fs phase workflow_name workflows_dir in
  let* result := load_definition fs workflow_dir in
  let result := <["instructions_path" :=
    of_optional_path (_resolve_ref fs workflow_dir result ["instructions"])]> result in
  let result := <["checklist_path" :=
    of_optional_path
      (_resolve_ref fs workflow_dir result ["validation"; "checklist"])]> result in
  let result := <["template_path" :=
    of_optional_path (_resolve_ref fs workflow_dir result ["template"])]> result in
  Ok result.

End Load.

End Workflows.

(** ** artifacts.py *)

Module Artifacts.

(** *** The file store

    The files and directories the artifact functions read and write, keyed
    by path from the root, which is a directory.  File names are single
    components: the statements on an artifact type ask that it names one
    file where they depend on it.  A file holds the text written to it;
    reading is in text mode, which translates the line ends. *)
Inductive node :=
| File (content : string)
| Dir.

Abbreviation store := (gmap path node).

Definition stat (fs : store) (p : path) : option node :=
  match p with
  | [] => Some Dir
  | _ => fs !! p
  end.

Definition exists_ (fs : store) (p : path) : bool :=
  match stat fs p with Some _ => true | None => false end.

Definition is_dir (fs : store) (p : path) : bool :=
  match stat fs p with Some Dir => true | _ => false end.

Definition read_text (fs : store) (p : path) : result string :=
  match stat fs p with
  | Some (File c) => Ok (universal_newlines c)
  | Some Dir => Raise IsADirectoryError
  | None => Raise FileNotFoundError
  end.

(** [p.write_text(content)]: the parent has to be a directory and [p] must
    not be one; an existing file is replaced. *)
Definition write_text (fs : store) (p : path) (content : string) : result store :=
  match stat fs (removelast p) with
  | None => Raise FileNotFoundError
  | Some (File _) => Raise NotADirectoryError
  | Some Dir =>
      match stat fs p with
      | Some Dir => Raise IsADirectoryError
      | _ => Ok (<[p := File content]> fs)
      end
  end.

(** [p.mkdir(parents=True, exist_ok=True)], for [p = base / segs]: each
    missing component is created in turn; a regular file in the way
    raises. *)
Fixpoint mkdir_from (base : path) (segs : list string) (fs : store)
  : result store :=
  match segs with
  | [] => Ok fs
  | seg :: rest =>
      let p := base ++ [seg] in
      match fs !! p with
      | Some (File _) =>
          Raise (match rest with [] => FileExistsError | _ => NotADirectoryError end)
      | Some Dir => mkdir_from p rest fs
      | None => mkdir_from p rest (<[p := Dir]> fs)
      end
  end.

Definition mkdir (fs : store) (p : path) : result store := mkdir_from [] p fs.

(** The entry of [d] that [p] names, if [p] lies directly in [d]. *)
Definition child_name (d p : path) : option string :=
  match last p with
  | Some n => if bool_decide (removelast p = d) then Some n else None
  | None => None
  end.

Definition str_le (a b : string) : Prop := String.leb a b = true.

#[global] Instance str_le_dec : RelDecision str_le.
Proof. intros a b. unfold str_le. apply _. Defined.

(** [sorted(d.glob("*" + suffix))]: the paths lie in one directory, so
    their order is the order of the file names. *)
Definition sorted_glob (fs : store) (d : path) (suffix : string) : list path :=
  map (fun n => d ++ [n])
    (merge_sort str_le
       (List.filter (ends_with suffix) (omap (child_name d) (map fst (map_to_list fs))))).

(** *** Artifacts *)

Definition ARTIFACT_FILES : gmap string string :=
  list_to_map
    [ ("product_brief", "product-brief.md");
      ("prd", "prd.md");
      ("ux_design", "ux-design.md");
      ("architecture", "architecture.md");
      ("epics", "epics.md");
      ("stories", "stories.md");
      ("sprint_plan", "sprint-plan.md");
      ("readiness_report", "readiness-report.md") ].

(** [ARTIFACT_FILES.get(artifact_type, f"{artifact_type}.md")] *)
Definition artifact_filename (artifact_type : string) : string :=
  default (artifact_type +:+ ".md") (ARTIFACT_FILES !! artifact_type).

(** The subdirectory [save_artifact] chooses. *)
Definition artifact_subdir (artifact_type : string) : string :=
  if bool_decide (artifact_type ∈
       ["product_brief"; "prd"; "ux_design"; "architecture"; "readiness_report"])
  then "planning"
  else if bool_decide (artifact_type ∈ ["epics"; "stories"; "sprint_plan"])
  then "stories"
  else "reviews".

Definition save_artifact (fs : store) (spec_dir : path)
    (artifact_type content : string) : result (store * path) :=
  let bmad_root := joinpath spec_dir Config.BMAD_ARTIFACTS_SUBDIR in
  let subdir := joinpath bmad_root (artifact_subdir artifact_type) in
  let* fs := mkdir fs subdir in
  let filename := artifact_filename artifact_type in
  let artifact_path := joinpath subdir filename in
  let* fs := write_text fs artifact_path content in
  Ok (fs, artifact_path).

(** The search loop of [load_artifact]. *)
Fixpoint search_subdirs (fs : store) (bmad_root : path) (filename : string)
    (subdirs : list string) : result (option string) :=
  match subdirs with
  | [] => Ok None
  | subdir :: rest =>
      let candidate :=
        if truthy subdir then joinpath (joinpath bmad_root subdir) filename
        else joinpath bmad_root filename in
      if exists_ fs candidate then
        let* content := read_text fs candidate in Ok (Some content)
      else search_subdirs fs bmad_root filename rest
  end.

Definition load_artifact (fs : store) (spec_dir : path) (artifact_type : string)
  : result (option string) :=
  let bmad_root := joinpath spec_dir Config.BMAD_ARTIFACTS_SUBDIR in
  let filename := artifact_filename artifact_type in
  search_subdirs fs bmad_root filename ["planning"; "stories"; "reviews"; ""].

(** *** The story parser *)

Record subtask := {
  id : string;
  description : string;
  details : string;
  service : string;
  files_to_modify : list string;
  files_to_create : list string;
  patterns_from : list string;
  acceptance_criteria : list string
}.

(** The variables of [_parse_stories_from_markdown] that [flush] and the
    loop share. *)
Record pstate := {
  subtasks : list subtask;
  current_heading : string;
  current_body_lines : list string;
  current_ac : list string;
  in_ac_section : bool
}.

Definition initial : pstate :=
  {| subtasks := []; current_heading := ""; current_body_lines := [];
     current_ac := []; in_ac_section := false |}.

Definition flush (start_index : Z) (st : pstate) : pstate :=
  let subtasks :=
    if truthy (current_heading st) then
      let idx := (start_index + Z.of_nat (length (subtasks st)))%Z in
      subtasks st ++
      [ {| id := "bmad-" +:+ format_03d (idx + 1);
           description := strip (current_heading st);
           details := strip (join (String "010"%char "") (current_body_lines st));
           service := "all";
           files_to_modify := [];
           files_to_create := [];
           patterns_from := [];
           acceptance_criteria := current_ac st |} ]
    else subtasks st in
  {| subtasks := subtasks; current_heading := ""; current_body_lines := [];
     current_ac := []; in_ac_section := false |}.

Definition non_story_keywords : list string :=
  ["acceptance criteria"; "tasks"; "subtask"; "notes"; "dependencies";
   "definition of done"].

(** One turn of the loop over the lines. *)
Definition step (start_index : Z) (st : pstate) (line : string) : pstate :=
  let stripped := strip line in
  if startswith stripped "## " || startswith stripped "### " then
    let heading := strip (lstrip "#" stripped) in
    if existsb (fun kw => contains kw (lower heading)) non_story_keywords then
      {| subtasks := subtasks st; current_heading := current_heading st;
         current_body_lines := current_body_lines st;
         current_ac := current_ac st;
         in_ac_section := contains "acceptance" (lower heading) |}
    else
      let st := flush start_index st in
      {| subtasks := subtasks st; current_heading := heading;
         current_body_lines := current_body_lines st;
         current_ac := current_ac st;
         in_ac_section := in_ac_section st |}
  else if in_ac_section st && startswith_any stripped ["- "; "* "; "- [ ] "] then
    let ac_text := strip (lstrip "-*[] " stripped) in
    if truthy ac_text then
      {| subtasks := subtasks st; current_heading := current_heading st;
         current_body_lines := current_body_lines st;
         current_ac := current_ac st ++ [ac_text];
         in_ac_section := in_ac_section st |}
    else st
  else if startswith (lower stripped) "ac:" || startswith (lower stripped) "given " then
    {| subtasks := subtasks st; current_heading := current_heading st;
       current_body_lines := current_body_lines st;
       current_ac := current_ac st ++ [stripped];
       in_ac_section := in_ac_section st |}
  else if truthy (current_heading st) then
    {| subtasks := subtasks st; current_heading := current_heading st;
       current_body_lines := current_body_lines st ++ [line];
       current_ac := current_ac st;
       in_ac_section := in_ac_section st |}
  else st.

(** The loop and the final [flush], on the lines of the text. *)
Definition parse_lines (lines : list string) (start_index : Z) : list subtask :=
  subtasks (flush start_index (fold_left (step start_index) lines initial)).

Definition _parse_stories_from_markdown (content : string) (start_index : Z)
  : list subtask :=
  parse_lines (splitlines content) start_index.

(** *** The plan *)

Record metadata := {
  source : string;
  generated_at : string;
  spec_dir_str : string
}.

Record plan := {
  plan_subtasks : list subtask;
  plan_metadata : metadata
}.

(** [a or b] for an optional string [a] *)
Definition or_else (a : option string) (b : string) : string :=
  match a with
  | Some s => if truthy s then s else b
  | None => b
  end.

(** Lines 149 to 152: [stories_content or epics_content or ""]. *)
Definition source_content (fs : store) (spec_dir : path) : result string :=
  let* stories_content := load_artifact fs spec_dir "stories" in
  let* epics_content := load_artifact fs spec_dir "epics" in
  Ok (or_else stories_content (or_else epics_content "")).

(** The loop over the individual story files. *)
Fixpoint story_files (fs : store) (files : list path)
    (subtasks : list subtask) (task_index : Z) : result (list subtask * Z) :=
  match files with
  | [] => Ok (subtasks, task_index)
  | story_file :: rest =>
      if bool_decide (name story_file ∈ (map_to_list ARTIFACT_FILES).*2) then
        story_files fs rest subtasks task_index
      else
        let* content := read_text fs story_file in
        let parsed := _parse_stories_from_markdown content task_index in
        story_files fs rest (subtasks ++ parsed)
          (task_index + Z.of_nat (length parsed))
  end.

Section Plan.

(** [json.dumps(plan, indent=2)] and [datetime.now().isoformat()] *)
Variable json_dumps : plan -> string.
Variable now_isoformat : string.

Definition stories_to_implementation_plan (fs : store) (spec_dir : path)
  : result (plan * store) :=
  let bmad_root := joinpath spec_dir Config.BMAD_ARTIFACTS_SUBDIR in
  let stories_dir := joinpath bmad_root "stories" in
  let* source_content := source_content fs spec_dir in
  let '(subtasks, task_index) :=
    if truthy source_content then
      let subtasks := _parse_stories_from_markdown source_content 0 in
      (subtasks, (0 + Z.of_nat (length subtasks))%Z)
    else ([], 0%Z) in
  let* (subtasks, task_index) :=
    if is_dir fs stories_dir then
      story_files fs (sorted_glob fs stories_dir ".md") subtasks task_index
    else Ok (subtasks, task_index) in
  let plan :=
    {| plan_subtasks := subtasks;
       plan_metadata :=
         {| source := "bmad"; generated_at := now_isoformat;
            spec_dir_str := String.concat "/" spec_dir |} |} in
  let plan_path := joinpath spec_dir "implementation_plan.json" in
  let* fs := write_text fs plan_path (json_dumps plan) in
  Ok (plan, fs).

End Plan.

End Artifacts.

(** ** Vocabulary of the statements *)

Import Artifacts.

(** The code points that a test on characters accepts. *)
Definition code_points (p : ascii -> bool) : list nat :=
  List.filter (fun n => p (ascii_of_nat n)) (seq 0 256).

Definition newline : string := String "010"%char "".

(** The test of line 222, the heading of line 223 and the test of lines
    225 to 227. *)
Definition is_heading_line (line : string) : bool :=
  startswith (strip line) "## " || startswith (strip line) "### ".

Definition heading_text (line : string) : string :=
  strip (lstrip "#" (strip line)).

Definition is_non_story (heading : string) : bool :=
  existsb (fun kw => contains kw (lower heading)) non_story_keywords.

(** A line that opens a story: a level-2 or level-3 heading that no
    keyword excludes. *)
Definition opens_story (line : string) : bool :=
  is_heading_line line && negb (is_non_story (heading_text line)).

(** The acceptance criteria that a span of lines without story-opening
    heading holds, [in_ac] telling whether an acceptance-criteria
    subsection is open where the span starts. *)
Fixpoint collect_ac (in_ac : bool) (lines : list string) : list string :=
  match lines with
  | [] => []
  | line :: rest =>
      let stripped := strip line in
      if is_heading_line line then
        collect_ac (contains "acceptance" (lower (heading_text line))) rest
      else if in_ac && startswith_any stripped ["- "; "* "; "- [ ] "] then
        let ac_text := strip (lstrip "-*[] " stripped) in
        (if truthy ac_text then [ac_text] else []) ++ collect_ac in_ac rest
      else if startswith (lower stripped) "ac:" || startswith (lower stripped) "given "
      then stripped :: collect_ac in_ac rest
      else collect_ac in_ac rest
  end.

(** The loop of the parser from a given state. *)
Definition run (start_index : Z) (st : pstate) (lines : list string) : pstate :=
  fold_left (step start_index) lines st.

(** [P] put in front of the subtasks of a state. *)
Definition prepend (P : list subtask) (st : pstate) : pstate :=
  {| subtasks := P ++ subtasks st; current_heading := current_heading st;
     current_body_lines := current_body_lines st; current_ac := current_ac st;
     in_ac_section := in_ac_section st |}.

(** The number of stories a state still holds open: one or none. *)
Definition pending (st : pstate) : nat :=
  if truthy (current_heading st) then 1 else 0.

(** The subtasks of [l] carry the ids that follow [start], in order. *)
Definition numbered (start : Z) (l : list subtask) : Prop :=
  forall (i : nat) (t : subtask),
    l !! i = Some t -> id t = "bmad-" +:+ format_03d (start + Z.of_nat i + 1).

Definition bmad_path (spec_dir : path) (subdir filename : string) : path :=
  ((spec_dir ++ [Config.BMAD_ARTIFACTS_SUBDIR]) ++ [subdir]) ++ [filename].

(** The path [save_artifact] writes. *)
Definition artifact_path (spec_dir : path) (artifact_type : string) : path :=
  bmad_path spec_dir (artifact_subdir artifact_type)
    (artifact_filename artifact_type).



Definition is_file (fs : store) (p : path) : bool :=
  match fs !! p with Some (File _) => true | _ => false end.

(** The directories on the way to [p], [p] included. *)
Definition prefixes (p : path) : list path :=
  map (fun k => take k p) (seq 1 (length p)).


Definition carriage_return : string := String "013"%char "".

(** Nothing stands in the way of [save_artifact]: no regular file where
    it needs a directory, no directory where it writes the file. *)
Definition can_save (fs : store) (spec_dir : path) (artifact_type : string) : bool :=
  forallb (fun q => negb (is_file fs q))
    (prefixes ((spec_dir ++ [Config.BMAD_ARTIFACTS_SUBDIR])
               ++ [artifact_subdir artifact_type]))
  && negb (is_dir fs (artifact_path spec_dir artifact_type)).

(** A spec directory in which the stories artifact is an empty file and
    the epics artifact is not. *)
Definition empty_stories_store : store :=
  list_to_map
    [ (["spec"], Dir);
      (["spec"; "bmad"], Dir);
      (["spec"; "bmad"; "stories"], Dir);
      (["spec"; "bmad"; "stories"; "stories.md"], File "");
      (["spec"; "bmad"; "stories"; "epics.md"], File "## Checkout") ].

(** Texts parsed one after the other, each from the index at which the
    one before it ends. *)
Fixpoint parse_documents (docs : list string) (task_index : Z) : list subtask :=
  match docs with
  | [] => []
  | d :: rest =>
      let parsed := _parse_stories_from_markdown d task_index in
      parsed ++ parse_documents rest (task_index + Z.of_nat (length parsed))
  end.

(** The file names of the consolidated artifacts. *)
Definition consolidated_names : list string := (map_to_list ARTIFACT_FILES).*2.

Definition is_individual (n : string) : bool :=
  negb (bool_decide (n ∈ consolidated_names)).

(** The names of the individual story files: the entries of the stories
    directory that end in [.md] and are no consolidated artifact, in the
    order of their names. *)
Definition individual_story_names (fs : store) (stories_dir : path) : list string :=
  if is_dir fs stories_dir then
    List.filter is_individual
      (merge_sort str_le
         (List.filter (ends_with ".md")
            (omap (child_name stories_dir) (map fst (map_to_list fs)))))
  else [].

Definition individual_story_files (fs : store) (stories_dir : path) : list path :=
  map (fun n => stories_dir ++ [n]) (individual_story_names fs stories_dir).

(** A spec directory with a consolidated stories file of two stories and
    one more story in [extra.md]. *)
Definition two_and_one_store : store :=
  list_to_map
    [ (["spec"], Dir);
      (["spec"; "bmad"], Dir);
      (["spec"; "bmad"; "stories"], Dir);
      (["spec"; "bmad"; "stories"; "stories.md"],
        File ("## Sign up" +:+ newline +:+ "Form" +:+ newline
              +:+ "## Sign in" +:+ newline +:+ "Session" +:+ newline));
      (["spec"; "bmad"; "stories"; "extra.md"],
        File ("## Sign out" +:+ newline +:+ "Button" +:+ newline)) ].

(** The plan that [two_and_one_store] gives. *)
Definition two_and_one_plan : plan :=
  {| plan_subtasks :=
       [ {| id := "bmad-001"; description := "Sign up"; details := "Form";
            service := "all"; files_to_modify := []; files_to_create := [];
            patterns_from := []; acceptance_criteria := [] |};
         {| id := "bmad-002"; description := "Sign in"; details := "Session";
            service := "all"; files_to_modify := []; files_to_create := [];
            patterns_from := []; acceptance_criteria := [] |};
         {| id := "bmad-003"; description := "Sign out"; details := "Button";
            service := "all"; files_to_modify := []; files_to_create := [];
            patterns_from := []; acceptance_criteria := [] |} ];
     plan_metadata :=
       {| source := "bmad"; generated_at := "2026-01-01T00:00:00";
          spec_dir_str := "spec" |} |}.

(** The directory a call of [load_workflow] names, if it names one: the
    phase directory and the workflow name come from the table when no
    workflow name is given. *)
Definition workflow_target (root : path) (phase : string)
    (workflow_name : option string) : option path :=
  match workflow_name with
  | Some n => Some (joinpath (joinpath root phase) n)
  | None =>
      match Config.PHASE_WORKFLOW_MAP !! phase with
      | Some (d, n) => Some (joinpath (joinpath root d) n)
      | None => None
      end
  end.

(** All matches of the patterns of [keys], in the order in which
    [_resolve_ref] tries the patterns: key by key, [.md] before [.xml]. *)
Definition glob_candidates (fs : Workflows.node) (d : path) (keys : list string)
  : list path :=
  flat_map
    (fun key => Workflows.glob fs d key ".md" ++ Workflows.glob fs d key ".xml")
    keys.

(** The binding of [k] in the items of a YAML mapping: the last one. *)
Fixpoint yaml_lookup (k : string) (items : list (string * Workflows.yaml_value))
  : option Workflows.yaml_value :=
  match items with
  | [] => None
  | (k', v) :: rest =>
      match yaml_lookup k rest with
      | Some v' => Some v'
      | None => if bool_decide (k' = k) then Some v else None
      end
  end.

(** The least of a list of names, in the order of strings. *)
Definition least_name (names : list string) : option string :=
  head (merge_sort str_le names).

(** The sentence of the design document on the third step of the
    resolution, read literally: of all the entries that match [*<key>*.md]
    or [*<key>*.xml], the one whose name comes first in the order of
    strings. *)
Definition lexicographically_first_match (fs : Workflows.node) (d : path)
    (keys : list string) : option path :=
  match Workflows.stat fs d with
  | Some (Workflows.Dir es) =>
      (fun n => d ++ [n]) <$>
        least_name
          (List.filter
             (fun n => existsb (fun key => Workflows.glob_match key ".md" n
                                           || Workflows.glob_match key ".xml" n) keys)
             (map fst es))
  | _ => None
  end.

(** A workflow directory with two files that match the template patterns
    and no [template.md]. *)
Definition two_templates : Workflows.node :=
  Workflows.Dir
    [ ("create-prd",
       Workflows.Dir
         [ ("a-template.xml", Workflows.File "<template/>");
           ("b-template.md", Workflows.File "# Template") ]) ].

(** A workflow directory that the operating system lists with the names
    not in order. *)
Definition reversed_listing : Workflows.node :=
  Workflows.Dir
    [ ("create-prd",
       Workflows.Dir
         [ ("z-template.md", Workflows.File "# Z");
           ("a-template.md", Workflows.File "# A") ]) ].

(** A workflow whose [workflow.yaml] names a checklist with a path prefix
    and sets [workflow_dir] and [instructions_path] itself; the document is
    given as [yaml.safe_load] returns it. *)
Definition prd_workflows : Workflows.node :=
  Workflows.Dir
    [ ("2-planning",
       Workflows.Dir
         [ ("create-prd",
            Workflows.Dir
              [ ("workflow.yaml", Workflows.File "name: create-prd");
                ("checklist.md", Workflows.File "- [ ] goals");
                ("instructions.md", Workflows.File "Write the PRD") ]) ]) ].

Definition prd_yaml (raw : string) : result Workflows.yaml_value :=
  Ok (Workflows.YMap
        [ ("name", Workflows.YStr "create-prd");
          ("workflow_dir", Workflows.YStr "elsewhere");
          ("instructions_path", Workflows.YStr "bogus.md");
          ("validation", Workflows.YStr "{installed_path}/checklist.md") ]).

(** ** The rest of the source *)

(** *** config.py: the track *)

Inductive BMADTrack := QUICK_FLOW | BMAD_METHOD | ENTERPRISE.

Definition get_bmad_track (complexity : string) : BMADTrack :=
  let mapping : gmap string BMADTrack :=
    list_to_map
      [ ("simple", QUICK_FLOW); ("standard", BMAD_METHOD); ("complex", ENTERPRISE) ] in
  default BMAD_METHOD (mapping !! lower complexity).

(** *** artifacts.py: the directory layout *)

(** The loop of [create_bmad_structure]. *)
Fixpoint mkdir_subdirs (fs : store) (bmad_root : path) (subdirs : list string)
  : result store :=
  match subdirs with
  | [] => Ok fs
  | subdir :: rest =>
      let* fs := mkdir fs (joinpath bmad_root subdir) in
      mkdir_subdirs fs bmad_root rest
  end.

Definition create_bmad_structure (fs : store) (spec_dir : path) : result store :=
  let bmad_root := joinpath spec_dir Config.BMAD_ARTIFACTS_SUBDIR in
  mkdir_subdirs fs bmad_root ["planning"; "stories"; "reviews"].

(** *** Exceptions that are no [exn] *)

Inductive raised :=
| Builtin (e : exn)
| AttributeError.

Inductive outcome (A : Type) :=
| Returns (a : A)
| Raises (e : raised).
Arguments Returns {A} a.
Arguments Raises {A} e.

Definition lift {A : Type} (r : result A) : outcome A :=
  match r with
  | Ok a => Returns a
  | Raise e => Raises (Builtin e)
  end.

(** *** workflows.py: the readers *)

(** Truth value of a value of the workflow dict: a [Path] is true. *)
Definition pyval_truthy (v : Workflows.pyval) : bool :=
  match v with
  | Workflows.PPath _ => true
  | Workflows.PData d => Workflows.yaml_truthy d
  end.

(** [path = workflow.get(key)] followed by
    [if path and path.exists(): return path.read_text()]: the text read,
    or nothing when the test fails.  A true value that is no [Path] has no
    [exists]. *)
Definition read_entry (fs : Workflows.node) (workflow : gmap string Workflows.pyval)
    (key : string) : outcome (option string) :=
  match workflow !! key with
  | Some (Workflows.PPath p) =>
      if Workflows.exists_ fs p then
        match Workflows.read_text fs p with
        | Ok text => Returns (Some text)
        | Raise e => Raises (Builtin e)
        end
      else Returns None
  | Some (Workflows.PData d) =>
      if Workflows.yaml_truthy d then Raises AttributeError else Returns None
  | None => Returns None
  end.

Definition py_str_value (s : string) : Workflows.pyval :=
  Workflows.PData (Workflows.YStr s).

Definition get_instructions (fs : Workflows.node)
    (workflow : gmap string Workflows.pyval) : outcome Workflows.pyval :=
  match read_entry fs workflow "instructions_path" with
  | Raises e => Raises e
  | Returns (Some text) => Returns (py_str_value text)
  | Returns None =>
      match workflow !! "workflow_content" with
      | Some content =>
          if pyval_truthy content then Returns content
          else Returns (py_str_value "")
      | None => Returns (py_str_value "")
      end
  end.

Definition get_checklist (fs : Workflows.node)
    (workflow : gmap string Workflows.pyval) : outcome string :=
  match read_entry fs workflow "checklist_path" with
  | Raises e => Raises e
  | Returns (Some text) => Returns text
  | Returns None => Returns ""
  end.

Definition get_template (fs : Workflows.node)
    (workflow : gmap string Workflows.pyval) : outcome string :=
  match read_entry fs workflow "template_path" with
  | Raises e => Raises e
  | Returns (Some text) => Returns text
  | Returns None => Returns ""
  end.

(** [d.iterdir()]: the entries of a directory, as paths, in the order of
    enumeration. *)
Definition iterdir (fs : Workflows.node) (d : path) : list path :=
  match Workflows.stat fs d with
  | Some (Workflows.Dir es) => map (fun e => d ++ [e.1]) es
  | _ => []
  end.

Definition list_workflows (BMAD_WORKFLOWS_DIR : path) (fs : Workflows.node)
    (phase : string) (workflows_dir : option path) : list string :=
  let base := default BMAD_WORKFLOWS_DIR workflows_dir in
  let phase_dir := joinpath base phase in
  if negb (Workflows.is_dir fs phase_dir) then []
  else
    merge_sort str_le
      (map name
         (List.filter
            (fun d => Workflows.is_dir fs d && negb (startswith (name d) "."))
            (iterdir fs phase_dir))).

(** *** personas.py *)

Definition _AGENT_SUFFIX : string := ".agent.yaml".

(** [s.removesuffix(suffix)] *)
Fixpoint removesuffix (suffix s : string) : string :=
  if bool_decide (s = suffix) then ""
  else
    match s with
    | EmptyString => EmptyString
    | String c t => if ends_with suffix t then String c (removesuffix suffix t) else s
    end.

Section Personas.

Variable yaml_safe_load : string -> result Workflows.yaml_value.
Variable BMAD_AGENTS_DIR : path.

Definition load_persona (fs : Workflows.node) (agent_name : string)
    (agents_dir : option path) : outcome Workflows.yaml_value :=
  let base := default BMAD_AGENTS_DIR agents_dir in
  let agent_file := joinpath base (agent_name +:+ _AGENT_SUFFIX) in
  if negb (Workflows.exists_ fs agent_file) then Raises (Builtin FileNotFoundError)
  else
    match Workflows.read_text fs agent_file with
    | Raise e => Raises (Builtin e)
    | Ok raw =>
        match yaml_safe_load raw with
        | Raise e => Raises (Builtin e)
        | Ok data =>
            match data with
            | Workflows.YMap items => Returns (default data (yaml_lookup "agent" items))
            | _ => Raises AttributeError
            end
        end
    end.

(** The loop of [get_all_personas] over the sorted entries. *)
Fixpoint load_each (fs : Workflows.node) (base : path) (paths : list path)
    (personas : gmap string Workflows.yaml_value)
  : gmap string Workflows.yaml_value :=
  match paths with
  | [] => personas
  | p :: rest =>
      if ends_with _AGENT_SUFFIX (name p) then
        let stem := removesuffix _AGENT_SUFFIX (name p) in
        match load_persona fs stem (Some base) with
        | Returns persona => load_each fs base rest (<[stem := persona]> personas)
        | Raises _ => load_each fs base rest personas
        end
      else load_each fs base rest personas
  end.

Definition get_all_personas (fs : Workflows.node) (agents_dir : option path)
  : gmap string Workflows.yaml_value :=
  let base := default BMAD_AGENTS_DIR agents_dir in
  if negb (Workflows.is_dir fs base) then ∅
  else
    load_each fs base
      (map (fun n => base ++ [n]) (merge_sort str_le (map name (iterdir fs base))))
      ∅.

End Personas.

(** [_clean_multiline] on a [str]: the lines of the stripped text that are
    not blank, each stripped, joined by one space. *)
Definition clean_lines (text : string) : list string :=
  List.filter truthy (map strip (splitlines (strip text))).

Section CleanMultiline.

(** [str(text)] for a value that is no [str] *)
Variable str_of : Workflows.yaml_value -> string.

Definition _clean_multiline (text : Workflows.yaml_value) : string :=
  match text with
  | Workflows.YStr s => join " " (clean_lines s)
  | _ => str_of text
  end.

End CleanMultiline.

(** The path of a subdirectory of [bmad/], or of a file directly in it. *)
Definition subdir_path (spec_dir : path) (subdir : string) : path :=
  (spec_dir ++ [Config.BMAD_ARTIFACTS_SUBDIR]) ++ [subdir].

(** The body lines that a span of lines without story-opening heading
    gives to the open story: all but the headings and the criteria. *)
Fixpoint collect_body (in_ac : bool) (lines : list string) : list string :=
  match lines with
  | [] => []
  | line :: rest =>
      let stripped := strip line in
      if is_heading_line line then
        collect_body (contains "acceptance" (lower (heading_text line))) rest
      else if in_ac && startswith_any stripped ["- "; "* "; "- [ ] "] then
        collect_body in_ac rest
      else if startswith (lower stripped) "ac:" || startswith (lower stripped) "given "
      then collect_body in_ac rest
      else line :: collect_body in_ac rest
  end.

(** The fields that the parser fills with constants. *)
Definition bridge_fields (t : subtask) : Prop :=
  service t = "all" /\ files_to_modify t = [] /\ files_to_create t = []
  /\ patterns_from t = [].

(** The descriptions of the subtasks a state holds, the open story
    included. *)
Definition descriptions (st : pstate) : list string :=
  map description (subtasks st)
  ++ (if truthy (current_heading st) then [strip (current_heading st)] else []).

(** A workflow given as Markdown only. *)
Definition markdown_workflows : Workflows.node :=
  Workflows.Dir
    [ ("quick-flow",
       Workflows.Dir
         [ (".cache", Workflows.Dir []);
           ("quick-spec",
            Workflows.Dir [ ("workflow.md", Workflows.File "# Quick spec") ]);
           ("README.md", Workflows.File "read me");
           ("quick-dev", Workflows.Dir []) ]) ].

(** A text without line boundary. *)
Definition single_line (s : string) : Prop :=
  Forall (fun c => is_linebreak c = false) (list_ascii_of_string s).

(** *** bmad_phases.py: the files the phases look for *)

(** [brief_file], [prd_file], [arch_file] and [plan_file] of the phase
    methods. *)
Definition brief_file (spec_dir : path) : path :=
  joinpath (joinpath (joinpath spec_dir "bmad") "planning") "product-brief.md".

Definition prd_file (spec_dir : path) : path :=
  joinpath (joinpath (joinpath spec_dir "bmad") "planning") "prd.md".

Definition arch_file (spec_dir : path) : path :=
  joinpath (joinpath (joinpath spec_dir "bmad") "planning") "architecture.md".

Definition plan_file (spec_dir : path) : path :=
  joinpath spec_dir "implementation_plan.json".

(** Lines 93 to 97 of [get_instructions]: the entry [workflow_content]
    when it is true, and the empty string otherwise. *)
Definition content_or_empty (workflow : gmap string Workflows.pyval)
  : outcome Workflows.pyval :=
  match workflow !! "workflow_content" with
  | Some content =>
      if pyval_truthy content then Returns content
      else Returns (py_str_value "")
  | None => Returns (py_str_value "")
  end.

(** * Properties *)

(** ** Strings *)

(** The classes of characters are those of Python on U+0000..U+00FF. *)
Lemma isspace_code_points :
  code_points isspace = [9; 10; 11; 12; 13; 28; 29; 30; 31; 32; 133; 160].
Proof. vm_compute. reflexivity. Qed.

Lemma is_linebreak_code_points :
  code_points is_linebreak = [10; 11; 12; 13; 28; 29; 30; 133].
Proof. vm_compute. reflexivity. Qed.

Lemma lower_char_code_points :
  code_points (fun c => negb (bool_decide (lower_char c = c)))
  = seq 65 26 ++ seq 192 23 ++ seq 216 7
  /\ forallb (fun n => bool_decide
        (nat_of_ascii (lower_char (ascii_of_nat n)) = n + 32))
       (seq 65 26 ++ seq 192 23 ++ seq 216 7) = true.
Proof. split; vm_compute; reflexivity. Qed.

Lemma prefix_app (p s : string) :
  String.prefix p s = true -> exists r, s = p +:+ r.
Proof.
  revert s. induction p as [|c p IH]; intros s H.
  - exists s. reflexivity.
  - destruct s as [|c' s]; simpl in H; [discriminate|].
    destruct (ascii_dec c c') as [->|]; [|discriminate].
    destruct (IH _ H) as [r ->]. exists r. reflexivity.
Qed.

Lemma rstrip_by_idem (p : ascii -> bool) (s : string) :
  rstrip_by p (rstrip_by p s) = rstrip_by p s.
Proof.
  induction s as [|c t IH]; simpl; [reflexivity|].
  destruct (rstrip_by p t) as [|c' t'] eqn:E.
  - destruct (p c) eqn:Hc; simpl; [reflexivity|]. rewrite Hc. reflexivity.
  - simpl in *. rewrite IH. reflexivity.
Qed.

Lemma rstrip_lstrip_empty (p : ascii -> bool) (s : string) :
  rstrip_by p (lstrip_by p s) = "" -> rstrip_by p s = "".
Proof.
  induction s as [|c t IH]; simpl; [reflexivity|].
  destruct (p c) eqn:Hc.
  - intros H. rewrite (IH H). reflexivity.
  - simpl. rewrite ?Hc. intros H. exact H.
Qed.

Lemma strip_rstrip (s : string) : rstrip_by isspace (strip s) = strip s.
Proof. apply rstrip_by_idem. Qed.


Lemma app_String (c : ascii) (s r : string) : String c s +:+ r = String c (s +:+ r).
Proof. reflexivity. Qed.

Lemma app_Empty (r : string) : "" +:+ r = r.
Proof. reflexivity. Qed.

Lemma lstrip_hash2 r : lstrip "#" (String "#" (String "#" (String " " r))) = String " " r.
Proof. reflexivity. Qed.
Lemma lstrip_hash3 r : lstrip "#" (String "#" (String "#" (String "#" (String " " r)))) = String " " r.
Proof. reflexivity. Qed.

(** The text of a heading line is never empty: the line is stripped and
    goes on after the blank that follows its [#] marks. *)
Lemma heading_text_truthy (line : string) :
  is_heading_line line = true -> truthy (heading_text line) = true.
Proof.
  unfold is_heading_line, heading_text, startswith.
  pose proof (strip_rstrip line) as Hid.
  destruct (strip line) as [|c1 s1] eqn:Es; [discriminate|].
  intros H. apply orb_true_iff in H.
  destruct (truthy (strip (lstrip "#" (String c1 s1)))) eqn:Ht; [reflexivity|].
  exfalso.
  assert (Hempty : forall r, strip (String " " r) = "" -> rstrip_by isspace r = "").
  { intros r Hr. apply rstrip_lstrip_empty. exact Hr. }
  destruct H as [H|H]; apply prefix_app in H; destruct H as [r Hr];
    rewrite Hr in Ht, Hid; rewrite !app_String, app_Empty in Ht, Hid;
    rewrite ?lstrip_hash2, ?lstrip_hash3 in Ht;
    (destruct (strip (String " " r)) eqn:E; [|discriminate Ht]);
    apply Hempty in E; simpl in Hid; rewrite E in Hid; discriminate Hid.
Qed.

(** ** The loop of the story parser *)

Lemma step_opens (start : Z) (st : pstate) (line : string) :
  opens_story line = true ->
  step start st line =
    {| subtasks := subtasks (flush start st);
       current_heading := heading_text line;
       current_body_lines := []; current_ac := []; in_ac_section := false |}.
Proof.
  unfold opens_story, is_heading_line, is_non_story, heading_text.
  intros [H1 H2]%andb_true_iff. apply negb_true_iff in H2.
  unfold step. cbv zeta. rewrite H1, H2. reflexivity.
Qed.

Lemma step_non_story (start : Z) (st : pstate) (line : string) :
  is_heading_line line = true ->
  is_non_story (heading_text line) = true ->
  step start st line =
    {| subtasks := subtasks st; current_heading := current_heading st;
       current_body_lines := current_body_lines st;
       current_ac := current_ac st;
       in_ac_section := contains "acceptance" (lower (heading_text line)) |}.
Proof.
  unfold is_heading_line, is_non_story, heading_text. intros H1 H2.
  unfold step. cbv zeta. rewrite H1, H2. reflexivity.
Qed.

Lemma opens_story_false (line : string) :
  opens_story line = false ->
  is_heading_line line = false \/
  is_heading_line line = true /\ is_non_story (heading_text line) = true.
Proof.
  unfold opens_story. destruct (is_heading_line line); [|auto].
  destruct (is_non_story (heading_text line)); [auto|discriminate].
Qed.

(** A line that opens no story leaves the subtasks and the open heading
    alone, and adds to the criteria what [collect_ac] says. *)
Lemma step_span (start : Z) (st : pstate) (line : string) (rest : list string) :
  opens_story line = false ->
  subtasks (step start st line) = subtasks st /\
  current_heading (step start st line) = current_heading st /\
  current_ac (step start st line)
    ++ collect_ac (in_ac_section (step start st line)) rest
  = current_ac st ++ collect_ac (in_ac_section st) (line :: rest).
Proof.
  intros H. destruct (opens_story_false _ H) as [Hh|[Hh Hk]].
  - simpl collect_ac. rewrite Hh. unfold step. cbv zeta.
    unfold is_heading_line in Hh. rewrite Hh.
    destruct (in_ac_section st && _) eqn:E1.
    + destruct (truthy _) eqn:E2; simpl; rewrite ?E1;
        repeat split; rewrite <- ?app_assoc; reflexivity.
    + destruct (startswith (lower (strip line)) "ac:" || _) eqn:E2.
      * simpl. rewrite <- app_assoc. repeat split.
      * destruct (truthy (current_heading st)); simpl; repeat split.
  - rewrite (step_non_story _ _ _ Hh Hk). simpl. rewrite Hh. repeat split.
Qed.

Lemma run_span (start : Z) (body : list string) (st : pstate) :
  Forall (fun l => opens_story l = false) body ->
  subtasks (run start st body) = subtasks st /\
  current_heading (run start st body) = current_heading st /\
  current_ac (run start st body)
  = current_ac st ++ collect_ac (in_ac_section st) body.
Proof.
  intros H. revert st. induction H as [|line rest Hl _ IH]; intros st.
  - simpl. rewrite app_nil_r. repeat split.
  - unfold run in *. simpl fold_left.
    destruct (IH (step start st line)) as (-> & -> & ->).
    destruct (step_span start st line rest Hl) as (-> & -> & ->).
    repeat split.
Qed.

(** *** Counting the subtasks *)

Lemma flush_length (start : Z) (st : pstate) :
  length (subtasks (flush start st)) = length (subtasks st) + pending st.
Proof.
  unfold flush, pending. destruct (truthy (current_heading st)); simpl.
  - rewrite length_app. reflexivity.
  - lia.
Qed.

Lemma run_count (start : Z) (lines : list string) (st : pstate) :
  length (subtasks (run start st lines)) + pending (run start st lines)
  = length (subtasks st) + pending st + length (List.filter opens_story lines).
Proof.
  revert st. induction lines as [|line rest IH]; intros st; simpl.
  - lia.
  - unfold run in *. simpl fold_left. rewrite IH.
    destruct (opens_story line) eqn:E.
    + rewrite (step_opens _ _ _ E). unfold pending at 1.
      cbn [subtasks current_heading length].
      apply andb_true_iff in E as [E _].
      rewrite (heading_text_truthy _ E), flush_length. lia.
    + destruct (step_span start st line [] E) as (H1 & H2 & _).
      unfold pending. rewrite H1, H2. lia.
Qed.

Lemma parse_lines_length (lines : list string) (start : Z) :
  length (parse_lines lines start) = length (List.filter opens_story lines).
Proof.
  unfold parse_lines. rewrite flush_length.
  change (fold_left (step start) lines initial) with (run start initial lines).
  rewrite run_count. simpl. reflexivity.
Qed.

Lemma filter_opens_le (lines : list string) :
  length (List.filter opens_story lines)
  <= length (List.filter is_heading_line lines).
Proof.
  induction lines as [|l rest IH]; simpl; [lia|].
  unfold opens_story at 1. destruct (is_heading_line l); simpl.
  - destruct (negb _); simpl; lia.
  - exact IH.
Qed.

(** *** Subtasks in front *)

Lemma flush_prepend (start : Z) (P : list subtask) (st : pstate) :
  flush start (prepend P st)
  = prepend P (flush (start + Z.of_nat (length P)) st).
Proof.
  unfold flush, prepend. simpl. destruct (truthy (current_heading st)).
  - rewrite length_app, Nat2Z.inj_add, Z.add_assoc, app_assoc. reflexivity.
  - reflexivity.
Qed.

Lemma step_prepend (start : Z) (P : list subtask) (st : pstate) (line : string) :
  step start (prepend P st) line
  = prepend P (step (start + Z.of_nat (length P)) st line).
Proof.
  destruct (opens_story line) eqn:E.
  - rewrite !(step_opens _ _ _ E), flush_prepend. reflexivity.
  - unfold step. cbv zeta.
    destruct (startswith (strip line) "## " || _).
    + destruct (existsb _ _) eqn:Ek; [reflexivity|].
      unfold opens_story, is_heading_line, is_non_story, heading_text in E.
      rewrite flush_prepend. reflexivity.
    + unfold prepend.
      cbn [subtasks current_heading current_body_lines current_ac in_ac_section].
      repeat match goal with |- context [if ?b then _ else _] => destruct b end;
        reflexivity.
Qed.

Lemma run_prepend (start : Z) (P : list subtask) (lines : list string)
    (st : pstate) :
  run start (prepend P st) lines
  = prepend P (run (start + Z.of_nat (length P)) st lines).
Proof.
  revert st. induction lines as [|line rest IH]; intros st; [reflexivity|].
  unfold run in *. simpl. rewrite step_prepend. apply IH.
Qed.

(** The text splits at a line that opens a story: what stands before it is
    parsed by itself, and the rest with the index moved on. *)
Lemma parse_lines_app (pre : list string) (h : string) (rest : list string)
    (start : Z) :
  opens_story h = true ->
  parse_lines (pre ++ h :: rest) start
  = parse_lines pre start
    ++ parse_lines (h :: rest)
         (start + Z.of_nat (length (parse_lines pre start))).
Proof.
  intros Hh. unfold parse_lines.
  rewrite fold_left_app. simpl fold_left.
  rewrite !(step_opens _ _ _ Hh).
  set (P := subtasks (flush start (fold_left (step start) pre initial))).
  change (subtasks (flush (start + Z.of_nat (length P)) initial)) with (@nil subtask).
  pose proof (run_prepend start P rest
    {| subtasks := []; current_heading := heading_text h;
       current_body_lines := []; current_ac := []; in_ac_section := false |}) as Hr.
  unfold run, prepend in Hr. simpl in Hr. rewrite app_nil_r in Hr.
  rewrite Hr.
  pose proof (flush_prepend start P) as Hf. unfold prepend in Hf.
  rewrite Hf. reflexivity.
Qed.

(** *** Numbering *)

Lemma flush_numbered (start : Z) (st : pstate) :
  numbered start (subtasks st) -> numbered start (subtasks (flush start st)).
Proof.
  intros H. unfold flush. destruct (truthy (current_heading st)); simpl; [|exact H].
  intros i t Hi. apply lookup_app_Some in Hi as [Hi|[Hge Hi]]; [eauto|].
  destruct (i - length (subtasks st)) as [|k] eqn:Ek; simpl in Hi; [|discriminate].
  injection Hi as <-. simpl. do 2 f_equal. lia.
Qed.

Lemma step_numbered (start : Z) (st : pstate) (line : string) :
  numbered start (subtasks st) -> numbered start (subtasks (step start st line)).
Proof.
  intros H. destruct (opens_story line) eqn:E.
  - rewrite (step_opens _ _ _ E). simpl. apply flush_numbered, H.
  - destruct (step_span start st line [] E) as (-> & _). exact H.
Qed.

Lemma run_numbered (start : Z) (lines : list string) (st : pstate) :
  numbered start (subtasks st) -> numbered start (subtasks (run start st lines)).
Proof.
  revert st. induction lines as [|line rest IH]; intros st H; [exact H|].
  unfold run in *. simpl. apply IH, step_numbered, H.
Qed.

Lemma parse_lines_numbered (lines : list string) (start : Z) :
  numbered start (parse_lines lines start).
Proof.
  unfold parse_lines. apply flush_numbered.
  apply (run_numbered start lines initial). intros i t Hi. discriminate.
Qed.

(** ** The story parser: the claims *)

(** C5.  Scenario B: a story with an acceptance-criteria subsection.  The
    text [## Story / Intro / ### Acceptance Criteria / - given X / - then Y]
    parsed from index 0 gives exactly one subtask; its criteria are
    [given X] and [then Y], and its details are [Intro]: the two bullet
    lines are not part of the body. *)
Theorem scenario_B_acceptance_criteria :
  _parse_stories_from_markdown
    ("## Story" +:+ newline +:+ "Intro" +:+ newline
     +:+ "### Acceptance Criteria" +:+ newline
     +:+ "- given X" +:+ newline +:+ "- then Y" +:+ newline) 0
  = [ {| id := "bmad-001"; description := "Story"; details := "Intro";
         service := "all"; files_to_modify := []; files_to_create := [];
         patterns_from := [];
         acceptance_criteria := ["given X"; "then Y"] |} ].
Proof. vm_compute. reflexivity. Qed.

(** C6.  A level-2 or level-3 heading line whose text holds one of the
    keywords changes nothing but the acceptance-criteria flag: no story is
    started, the open story is not flushed, and the flag is set exactly
    when the heading holds "acceptance".  A text made of [### Notes] and a
    line of prose gives no subtask. *)
Theorem non_story_heading_keeps_story (start : Z) (st : pstate) (line : string) :
  is_heading_line line = true ->
  is_non_story (heading_text line) = true ->
  step start st line =
    {| subtasks := subtasks st; current_heading := current_heading st;
       current_body_lines := current_body_lines st;
       current_ac := current_ac st;
       in_ac_section := contains "acceptance" (lower (heading_text line)) |}
  /\ (in_ac_section (step start st line) = true
      <-> contains "acceptance" (lower (heading_text line)) = true)
  /\ _parse_stories_from_markdown ("### Notes" +:+ newline +:+ "some text") 0 = [].
Proof.
  intros Hh Hk. rewrite (step_non_story start st line Hh Hk). simpl.
  split; [reflexivity|]. split; [reflexivity|]. vm_compute. reflexivity.
Qed.

Lemma non_story_heading_keeps_story_witness :
  let st := {| subtasks := []; current_heading := "Login";
               current_body_lines := ["As a user"]; current_ac := ["ac: old"];
               in_ac_section := false |} in
  let line := "### Acceptance Criteria" in
  is_heading_line line = true /\
  is_non_story (heading_text line) = true /\
  step 0 st line =
    {| subtasks := []; current_heading := "Login";
       current_body_lines := ["As a user"]; current_ac := ["ac: old"];
       in_ac_section := true |}.
Proof.
  cbv zeta. split; [reflexivity|]. split; [reflexivity|].
  apply (non_story_heading_keeps_story 0
           {| subtasks := []; current_heading := "Login";
              current_body_lines := ["As a user"]; current_ac := ["ac: old"];
              in_ac_section := false |}
           "### Acceptance Criteria"); reflexivity.
Defined.

(** C8.  The parser is a total function from the text and the index to a
    list of subtasks: nothing in it can raise.  It gives one subtask for
    each line that opens a story, so never more than there are level-2
    or level-3 heading lines, and none for a text without such a line. *)
Theorem parser_total (content : string) (start : Z) :
  length (_parse_stories_from_markdown content start)
  = length (List.filter opens_story (splitlines content))
  /\ length (_parse_stories_from_markdown content start)
     <= length (List.filter is_heading_line (splitlines content))
  /\ (List.filter is_heading_line (splitlines content) = []
      -> _parse_stories_from_markdown content start = []).
Proof.
  unfold _parse_stories_from_markdown.
  pose proof (parse_lines_length (splitlines content) start) as Hlen.
  pose proof (filter_opens_le (splitlines content)) as Hle.
  split; [exact Hlen|]. split; [lia|].
  intros Hnone. rewrite Hnone in Hle. simpl in Hle.
  destruct (parse_lines (splitlines content) start); [reflexivity|].
  simpl in Hlen. lia.
Qed.

(** *** One story *)

(** Every criterion of a span is a line of the span, stripped, or stripped
    of its bullet as well. *)
Lemma collect_ac_from_lines (lines : list string) (in_ac : bool) (a : string) :
  a ∈ collect_ac in_ac lines ->
  exists l, l ∈ lines /\
    (a = strip l \/ a = strip (lstrip "-*[] " (strip l))).
Proof.
  revert in_ac. induction lines as [|line rest IH]; intros in_ac Ha; simpl in Ha.
  - apply elem_of_nil in Ha. contradiction.
  - assert (Hrest : forall b, a ∈ collect_ac b rest ->
      exists l, l ∈ line :: rest /\
        (a = strip l \/ a = strip (lstrip "-*[] " (strip l)))).
    { intros b Hb. destruct (IH b Hb) as (l & Hl & Hal).
      exists l. split; [right; exact Hl|exact Hal]. }
    destruct (is_heading_line line); [eauto|].
    destruct (in_ac && _).
    + apply elem_of_app in Ha as [Ha|Ha]; [|eauto].
      destruct (truthy _); [|apply elem_of_nil in Ha; contradiction].
      apply list_elem_of_singleton in Ha. exists line. split; [left|auto].
    + destruct (startswith _ _ || _); [|eauto].
      apply elem_of_cons in Ha as [->|Ha]; [|eauto].
      exists line. split; [left|auto].
Qed.

Lemma parse_lines_story (h : string) (body : list string) (start : Z) :
  opens_story h = true ->
  Forall (fun l => opens_story l = false) body ->
  map acceptance_criteria (parse_lines (h :: body) start) = [collect_ac false body]
  /\ length (parse_lines (h :: body) start) = 1.
Proof.
  intros Hh Hbody. unfold parse_lines. simpl fold_left.
  rewrite (step_opens _ _ _ Hh).
  change (subtasks (flush start initial)) with (@nil subtask).
  destruct (run_span start body
    {| subtasks := []; current_heading := heading_text h;
       current_body_lines := []; current_ac := []; in_ac_section := false |}
    Hbody) as (Hs & Hc & Ha).
  unfold run in *. simpl in Hs, Hc, Ha.
  apply andb_true_iff in Hh as [Hh _]. apply heading_text_truthy in Hh.
  unfold flush. rewrite Hc, Hh, Hs, Ha. simpl. split; reflexivity.
Qed.

Lemma parse_lines_no_story (lines : list string) (start : Z) :
  Forall (fun l => opens_story l = false) lines -> parse_lines lines start = [].
Proof.
  intros H.
  assert (Hf : List.filter opens_story lines = []).
  { induction H as [|l rest Hl _ IH]; simpl; [reflexivity|]. rewrite Hl. exact IH. }
  pose proof (parse_lines_length lines start) as Hlen.
  rewrite Hf in Hlen. destruct (parse_lines lines start); [reflexivity|discriminate].
Qed.

(** C10.  The criteria of a subtask come from the lines between its own
    heading and the next line that opens a story, and from nowhere else:
    with the text cut as [pre], the heading [h], the span [body] and the
    rest [post], the subtask of [h] has the criteria [collect_ac false body].
    When no line of [pre] opens a story, [pre] leaves no trace at all:
    the criteria it holds are dropped by the flush on [h]. *)
Theorem acceptance_criteria_local (content : string) (start : Z)
    (pre : list string) (h : string) (body post : list string) :
  splitlines content = pre ++ h :: body ++ post ->
  opens_story h = true ->
  Forall (fun l => opens_story l = false) body ->
  match post with [] => True | l :: _ => opens_story l = true end ->
  let k := Z.of_nat (length (parse_lines pre start)) in
  map acceptance_criteria (_parse_stories_from_markdown content start)
  = map acceptance_criteria (parse_lines pre start)
    ++ collect_ac false body
    :: map acceptance_criteria (parse_lines post (start + k + 1))
  /\ (Forall (fun l => opens_story l = false) pre ->
      _parse_stories_from_markdown content start
      = parse_lines (h :: body ++ post) start).
Proof.
  intros Hsplit Hh Hbody Hpost. cbv zeta.
  unfold _parse_stories_from_markdown. rewrite Hsplit.
  pose proof (parse_lines_story h body
    (start + Z.of_nat (length (parse_lines pre start))) Hh Hbody) as [Hac Hone].
  split.
  - destruct post as [|h2 post'].
    + rewrite app_nil_r, (parse_lines_app pre h body start Hh), map_app.
      rewrite Hac. reflexivity.
    + change (pre ++ h :: body ++ h2 :: post')
        with (pre ++ (h :: body) ++ h2 :: post').
      rewrite app_assoc, (parse_lines_app _ h2 post' start Hpost).
      rewrite (parse_lines_app pre h body start Hh), !map_app, length_app.
      rewrite Hac, Hone, <- app_assoc, Nat2Z.inj_add, Z.add_assoc. reflexivity.
  - intros Hpre.
    rewrite (parse_lines_app pre h (body ++ post) start Hh).
    rewrite (parse_lines_no_story pre start Hpre). simpl.
    rewrite Z.add_0_r. reflexivity.
Qed.

Lemma acceptance_criteria_local_witness :
  let content :=
    "### Acceptance Criteria" +:+ newline +:+ "- too early" +:+ newline
    +:+ "Given nothing yet" +:+ newline
    +:+ "## Story" +:+ newline
    +:+ "### Acceptance Criteria" +:+ newline +:+ "- given X" +:+ newline
    +:+ "## Next" +:+ newline +:+ "ac: done" in
  let pre := ["### Acceptance Criteria"; "- too early"; "Given nothing yet"] in
  let body := ["### Acceptance Criteria"; "- given X"] in
  let post := ["## Next"; "ac: done"] in
  splitlines content = pre ++ "## Story" :: body ++ post /\
  map acceptance_criteria (_parse_stories_from_markdown content 0)
  = [["given X"]; ["ac: done"]] /\
  _parse_stories_from_markdown content 0
  = parse_lines ("## Story" :: body ++ post) 0.
Proof.
  cbv zeta. split; [reflexivity|].
  pose proof (acceptance_criteria_local
    ("### Acceptance Criteria" +:+ newline +:+ "- too early" +:+ newline
     +:+ "Given nothing yet" +:+ newline
     +:+ "## Story" +:+ newline
     +:+ "### Acceptance Criteria" +:+ newline +:+ "- given X" +:+ newline
     +:+ "## Next" +:+ newline +:+ "ac: done")
    0 ["### Acceptance Criteria"; "- too early"; "Given nothing yet"]
    "## Story" ["### Acceptance Criteria"; "- given X"] ["## Next"; "ac: done"]
    eq_refl eq_refl
    ltac:(repeat constructor)
    eq_refl) as [Hac Hpre].
  split.
  - exact Hac.
  - apply Hpre. repeat constructor.
Defined.

(** ** The file store *)

Lemma stat_snoc (fs : store) (p : path) (s : string) :
  stat fs (p ++ [s]) = fs !! (p ++ [s]).
Proof. destruct p; reflexivity. Qed.

Lemma joinpath_proper (p : path) (s : string) :
  s <> "" -> s <> "." -> joinpath p s = p ++ [s].
Proof.
  intros H1 H2. unfold joinpath.
  rewrite !bool_decide_eq_false_2 by assumption. reflexivity.
Qed.

Lemma mkdir_from_frame (segs : list string) (base : path) (fs fs' : store)
    (q : path) :
  mkdir_from base segs fs = Ok fs' ->
  length base + length segs < length q ->
  fs' !! q = fs !! q.
Proof.
  revert base fs. induction segs as [|seg rest IH]; intros base fs H Hlen.
  - injection H as <-. reflexivity.
  - simpl in H, Hlen.
    assert (Hp : length (base ++ [seg]) + length rest < length q).
    { rewrite length_app. simpl. lia. }
    destruct (fs !! (base ++ [seg])) as [[c|]|] eqn:E.
    + discriminate.
    + exact (IH _ _ H Hp).
    + rewrite (IH _ _ H Hp). apply lookup_insert_ne.
      intros <-. rewrite length_app in Hlen. simpl in Hlen. lia.
Qed.

Lemma mkdir_from_ok (segs : list string) (base : path) (fs : store) :
  (forall k, 1 <= k <= length segs -> is_file fs (base ++ take k segs) = false) ->
  exists fs', mkdir_from base segs fs = Ok fs' /\
    (segs <> [] -> fs' !! (base ++ segs) = Some Dir).
Proof.
  revert base fs. induction segs as [|seg rest IH]; intros base fs H.
  - exists fs. split; [reflexivity|]. intros Hne. contradiction.
  - simpl.
    assert (H1 : is_file fs (base ++ [seg]) = false).
    { apply (H 1). simpl. lia. }
    assert (Hrest : forall fs0 : store,
      (forall q, length (base ++ [seg]) < length q -> fs0 !! q = fs !! q) ->
      forall k, 1 <= k <= length rest ->
        is_file fs0 ((base ++ [seg]) ++ take k rest) = false).
    { intros fs0 Hfs0 k Hk. unfold is_file. rewrite Hfs0.
      - rewrite <- app_assoc. apply (H (S k)). simpl. lia.
      - rewrite !length_app, length_take. simpl. lia. }
    assert (Hend : forall fs0 fs1 : store,
      fs0 !! (base ++ [seg]) = Some Dir ->
      mkdir_from (base ++ [seg]) rest fs0 = Ok fs1 ->
      (rest <> [] -> fs1 !! ((base ++ [seg]) ++ rest) = Some Dir) ->
      fs1 !! (base ++ seg :: rest) = Some Dir).
    { intros fs0 fs1 Hd Hm Hr. destruct rest as [|r rest'].
      - injection Hm as <-. exact Hd.
      - rewrite <- app_assoc in Hr. apply Hr. discriminate. }
    unfold is_file in H1.
    destruct (fs !! (base ++ [seg])) as [[c|]|] eqn:E; [discriminate H1| |].
    + destruct (IH (base ++ [seg]) fs) as (fs' & Hm & Hd).
      { apply Hrest. reflexivity. }
      exists fs'. split; [exact Hm|]. intros _. exact (Hend fs fs' E Hm Hd).
    + destruct (IH (base ++ [seg]) (<[base ++ [seg] := Dir]> fs)) as (fs' & Hm & Hd).
      { apply Hrest. intros q Hq. apply lookup_insert_ne. intros <-. lia. }
      exists fs'. split; [exact Hm|]. intros _.
      apply (Hend _ fs' (lookup_insert_eq _ _ _) Hm Hd).
Qed.

Lemma prefixes_take (p : path) (k : nat) :
  1 <= k <= length p -> take k p ∈ prefixes p.
Proof.
  intros Hk. unfold prefixes. apply list_elem_of_fmap. exists k.
  split; [reflexivity|]. apply list_elem_of_In, in_seq. lia.
Qed.

(** *** File names of artifacts *)

Lemma artifact_filename_proper (t : string) :
  artifact_filename t <> "" /\ artifact_filename t <> ".".
Proof.
  unfold artifact_filename. destruct (ARTIFACT_FILES !! t) as [f|] eqn:E; simpl.
  - apply elem_of_list_to_map_2 in E.
    repeat (apply elem_of_cons in E as [E|E];
            [injection E as -> ->; split; discriminate|]).
    apply elem_of_nil in E. contradiction.
  - destruct t as [|a [|b t']]; split; discriminate.
Qed.

Lemma artifact_subdir_cases (t : string) :
  artifact_subdir t = "planning" \/ artifact_subdir t = "stories"
  \/ artifact_subdir t = "reviews".
Proof.
  unfold artifact_subdir. repeat case_bool_decide; auto.
Qed.

(** ** Saving and loading artifacts *)



Lemma search_subdirs_hit (fs : store) (root : path) (filename subdir : string)
    (rest : list string) (c : string) :
  subdir <> "" -> subdir <> "." -> filename <> "" -> filename <> "." ->
  fs !! ((root ++ [subdir]) ++ [filename]) = Some (File c) ->
  search_subdirs fs root filename (subdir :: rest)
  = Ok (Some (universal_newlines c)).
Proof.
  intros Hs1 Hs2 Hf1 Hf2 Hfile. simpl.
  destruct subdir as [|a s]; [contradiction|]. simpl truthy. cbv iota.
  rewrite (joinpath_proper root _ Hs1 Hs2), (joinpath_proper _ _ Hf1 Hf2).
  unfold exists_, read_text. rewrite stat_snoc, Hfile. reflexivity.
Qed.

(** What [save_artifact] does when nothing is in its way: the file is
    written, and no other path of that depth changes. *)
Lemma save_artifact_ok (fs : store) (spec_dir : path) (t c : string) :
  can_save fs spec_dir t = true ->
  exists fs',
    save_artifact fs spec_dir t c = Ok (fs', artifact_path spec_dir t) /\
    fs' !! artifact_path spec_dir t = Some (File c) /\
    forall subdir filename,
      bmad_path spec_dir subdir filename <> artifact_path spec_dir t ->
      fs' !! bmad_path spec_dir subdir filename
      = fs !! bmad_path spec_dir subdir filename.
Proof.
  intros [Hpre Hnd]%andb_true_iff.
  destruct (artifact_filename_proper t) as [Hf1 Hf2].
  assert (Hsub : artifact_subdir t <> "" /\ artifact_subdir t <> ".").
  { destruct (artifact_subdir_cases t) as [-> | [-> | ->]]; split; discriminate. }
  destruct Hsub as [Hs1 Hs2].
  set (segs := (spec_dir ++ [Config.BMAD_ARTIFACTS_SUBDIR]) ++ [artifact_subdir t]) in *.
  destruct (mkdir_from_ok segs [] fs) as (fs1 & Hm & Hd).
  { intros k Hk. simpl. rewrite forallb_forall in Hpre.
    apply negb_true_iff, Hpre, list_elem_of_In, prefixes_take, Hk. }
  assert (Hframe : forall q, length segs < length q -> fs1 !! q = fs !! q).
  { intros q Hq. apply (mkdir_from_frame segs [] fs fs1 q Hm). simpl. exact Hq. }
  simpl in Hd. specialize (Hd ltac:(unfold segs; destruct (spec_dir ++ _); discriminate)).
  exists (<[segs ++ [artifact_filename t] := File c]> fs1).
  split; [|split].
  - unfold save_artifact, mkdir.
    rewrite (joinpath_proper spec_dir Config.BMAD_ARTIFACTS_SUBDIR) by discriminate.
    rewrite (joinpath_proper _ _ Hs1 Hs2), (joinpath_proper _ _ Hf1 Hf2).
    fold segs. rewrite Hm. simpl bind.
    unfold write_text. rewrite removelast_last. unfold segs at 1.
    rewrite stat_snoc. fold segs. rewrite Hd, stat_snoc, Hframe.
    + unfold is_dir, artifact_path, bmad_path in Hnd. fold segs in Hnd.
      rewrite stat_snoc in Hnd.
      destruct (fs !! (segs ++ [artifact_filename t])) as [[x|]|];
        [reflexivity|discriminate Hnd|reflexivity].
    + rewrite length_app. simpl. lia.
  - apply lookup_insert_eq.
  - intros subdir filename Hne. unfold artifact_path, bmad_path in *. fold segs in Hne.
    rewrite lookup_insert_ne by (intros Heq; apply Hne; symmetry; exact Heq).
    apply Hframe. unfold segs. rewrite !length_app. simpl. lia.
Qed.

(** A text without CR is read as it was written. *)
Lemma universal_newlines_id (c : string) :
  contains carriage_return c = false -> universal_newlines c = c.
Proof.
  unfold carriage_return. induction c as [|a t IH]; [reflexivity|].
  intros H.
  change (contains (String "013" "") (String a t))
    with (String.prefix (String "013" "") (String a t)
          || contains (String "013" "") t) in H.
  apply orb_false_iff in H as [Ha Ht].
  simpl universal_newlines.
  destruct (N_of_ascii a =? 13)%N eqn:E.
  - apply N.eqb_eq in E. apply (f_equal ascii_of_N) in E.
    rewrite ascii_N_embedding in E. subst a. simpl in Ha.
    destruct t; discriminate Ha.
  - rewrite (IH Ht). reflexivity.
Qed.


(** The condition on the subdirectories searched earlier cannot be
    dropped: a file of the artifact's name in [planning/] is what
    [load_artifact] returns after a save to another subdirectory. *)
Lemma save_then_load_planning_first (fs : store) (spec_dir : path)
    (t c c' : string) :
  can_save fs spec_dir t = true ->
  artifact_subdir t <> "planning" ->
  fs !! bmad_path spec_dir "planning" (artifact_filename t) = Some (File c') ->
  exists fs',
    save_artifact fs spec_dir t c = Ok (fs', artifact_path spec_dir t) /\
    load_artifact fs' spec_dir t = Ok (Some (universal_newlines c')).
Proof.
  intros Hcan Hsub Hfile.
  destruct (save_artifact_ok fs spec_dir t c Hcan) as (fs' & Hsave & _ & Hframe).
  exists fs'. split; [exact Hsave|].
  destruct (artifact_filename_proper t) as [Hf1 Hf2].
  unfold load_artifact.
  rewrite (joinpath_proper spec_dir Config.BMAD_ARTIFACTS_SUBDIR) by discriminate.
  apply search_subdirs_hit; try discriminate; try assumption.
  fold (bmad_path spec_dir "planning" (artifact_filename t)).
  rewrite Hframe; [exact Hfile|].
  unfold artifact_path, bmad_path. intros Heq.
  apply app_inj_tail in Heq as [Heq _]. apply app_inj_tail in Heq as [_ Heq].
  apply Hsub. symmetry. exact Heq.
Qed.

(** ** Saving and loading artifacts: the claims *)



(** C2, as the code has it.  The stories artifact is the source when it is
    present and not empty; when it is absent or empty the epics artifact
    is the source, and when that is absent too the source is empty. *)
Theorem source_content_selection (fs : store) (spec_dir : path)
    (stories epics : option string) :
  load_artifact fs spec_dir "stories" = Ok stories ->
  load_artifact fs spec_dir "epics" = Ok epics ->
  (forall s, stories = Some s -> s <> "" -> source_content fs spec_dir = Ok s)
  /\ (stories = None \/ stories = Some "" ->
      forall e, epics = Some e -> source_content fs spec_dir = Ok e)
  /\ (stories = None \/ stories = Some "" ->
      epics = None -> source_content fs spec_dir = Ok "").
Proof.
  intros Hs He. unfold source_content. rewrite Hs, He. simpl.
  split; [|split].
  - intros s -> Hne. simpl. destruct s; [contradiction|reflexivity].
  - intros [-> | ->] e ->; simpl; destruct e; reflexivity.
  - intros [-> | ->] ->; reflexivity.
Qed.

Lemma source_content_selection_witness :
  load_artifact empty_stories_store ["spec"] "stories" = Ok (Some "") /\
  load_artifact empty_stories_store ["spec"] "epics" = Ok (Some "## Checkout") /\
  source_content empty_stories_store ["spec"] = Ok "## Checkout".
Proof.
  split; [vm_compute; reflexivity|]. split; [vm_compute; reflexivity|].
  refine (proj1 (proj2 (source_content_selection empty_stories_store ["spec"]
    (Some "") (Some "## Checkout") _ _)) (or_intror eq_refl) _ eq_refl);
    vm_compute; reflexivity.
Defined.

(** C2, as stated, fails: the stories artifact is present, its content is
    the empty string, and the source is the content of the epics
    artifact. *)
Lemma empty_stories_fall_back_to_epics :
  load_artifact empty_stories_store ["spec"] "stories" = Ok (Some "") /\
  source_content empty_stories_store ["spec"] = Ok "## Checkout" /\
  "## Checkout" <> "".
Proof. split; [|split]; [vm_compute; reflexivity..|discriminate]. Qed.

(** ** The order of file names *)

Lemma str_le_trans : Transitive str_le.
Proof.
  unfold str_le, String.leb. intros s1.
  induction s1 as [|a s1 IH]; intros [|b s2] [|c s3]; simpl; try easy.
  unfold Ascii.compare.
  destruct (N.compare_spec (N_of_ascii a) (N_of_ascii b)) as [Hab|Hab|Hab];
    destruct (N.compare_spec (N_of_ascii b) (N_of_ascii c)) as [Hbc|Hbc|Hbc];
    destruct (N.compare_spec (N_of_ascii a) (N_of_ascii c)) as [Hac|Hac|Hac];
    try easy; try lia.
  apply IH.
Qed.

Lemma str_le_total : Total str_le.
Proof. intros a b. apply String.leb_total. Qed.

Lemma StronglySorted_filter {A : Type} (R : relation A) (f : A -> bool) (l : list A) :
  StronglySorted R l -> StronglySorted R (List.filter f l).
Proof.
  induction 1 as [|x l Hl IH Hx]; simpl; [constructor|].
  destruct (f x); [|exact IH]. constructor; [exact IH|].
  rewrite Forall_forall in *. intros y Hy.
  apply Hx, list_elem_of_In. apply list_elem_of_In, filter_In in Hy. tauto.
Qed.

Lemma name_snoc (d : path) (n : string) : name (d ++ [n]) = n.
Proof. unfold name. rewrite last_snoc. reflexivity. Qed.

Lemma individual_story_files_sorted (fs : store) (stories_dir : path) :
  StronglySorted str_le (map name (individual_story_files fs stories_dir)).
Proof.
  unfold individual_story_files. rewrite map_map.
  rewrite (map_ext _ (fun n => n)) by (intros n; apply name_snoc).
  rewrite map_id. unfold individual_story_names.
  destruct (is_dir fs stories_dir); [|constructor].
  apply StronglySorted_filter, StronglySorted_merge_sort.
  - apply str_le_trans.
  - apply str_le_total.
Qed.

Lemma child_name_Some (d p : path) (n : string) :
  child_name d p = Some n <-> p = d ++ [n].
Proof.
  unfold child_name. split.
  - destruct (last p) as [x|] eqn:E; [|discriminate].
    case_bool_decide as Hd; [|discriminate]. intros [= ->].
    destruct p as [|y p] using rev_ind; [discriminate|].
    rewrite last_snoc in E. injection E as ->.
    rewrite removelast_last in Hd. subst. reflexivity.
  - intros ->. rewrite last_snoc, removelast_last.
    rewrite bool_decide_eq_true_2 by reflexivity. reflexivity.
Qed.

(** The individual story files are the entries of the stories directory
    whose name ends in [.md] and is not that of a consolidated artifact. *)
Lemma individual_story_files_elem (fs : store) (stories_dir : path) (n : string) :
  is_dir fs stories_dir = true ->
  n ∈ individual_story_names fs stories_dir <->
  is_Some (fs !! (stories_dir ++ [n])) /\ ends_with ".md" n = true
  /\ n ∉ consolidated_names.
Proof.
  intros Hd. unfold individual_story_names. rewrite Hd.
  rewrite !list_elem_of_In, filter_In, <- !list_elem_of_In.
  rewrite merge_sort_Permutation.
  rewrite !list_elem_of_In, filter_In, <- !list_elem_of_In.
  rewrite list_elem_of_omap. unfold is_individual.
  rewrite negb_true_iff, bool_decide_eq_false.
  split.
  - intros [[(p & Hp & Hc) He] Hn]. apply child_name_Some in Hc. subst p.
    apply list_elem_of_fmap in Hp as ([p x] & -> & Hp).
    apply elem_of_map_to_list in Hp. simpl. eauto.
  - intros ([x Hx] & He & Hn). split; [split|]; [|assumption..].
    exists (stories_dir ++ [n]). split; [|apply child_name_Some; reflexivity].
    apply list_elem_of_fmap. exists (stories_dir ++ [n], x).
    split; [reflexivity|]. apply elem_of_map_to_list. exact Hx.
Qed.

(** ** The plan *)

(** Up to 999 the number takes exactly three digits. *)
Lemma format_03d_width (n : Z) :
  (0 <= n <= 999)%Z -> String.length (format_03d n) = 3.
Proof.
  intros Hn.
  assert (H : forallb (fun k => Nat.eqb (String.length (format_03d (Z.of_nat k))) 3)
                (seq 0 1000) = true) by (vm_compute; reflexivity).
  rewrite forallb_forall in H. specialize (H (Z.to_nat n)).
  rewrite Z2Nat.id in H by lia. apply Nat.eqb_eq, H, in_seq. lia.
Qed.

Lemma numbered_app (start : Z) (A B : list subtask) :
  numbered start A ->
  numbered (start + Z.of_nat (length A)) B ->
  numbered start (A ++ B).
Proof.
  intros HA HB i t Hi. apply lookup_app_Some in Hi as [Hi|[Hge Hi]].
  - apply HA, Hi.
  - rewrite (HB _ _ Hi). do 2 f_equal. lia.
Qed.

Lemma parse_documents_numbered (docs : list string) (start : Z) :
  numbered start (parse_documents docs start).
Proof.
  revert start. induction docs as [|d rest IH]; intros start; simpl.
  - intros i t Hi. discriminate.
  - apply numbered_app; [apply parse_lines_numbered|apply IH].
Qed.

Lemma story_files_spec (fs : store) (files : list path) (S S' : list subtask)
    (idx idx' : Z) :
  story_files fs files S idx = Ok (S', idx') ->
  exists contents,
    Forall2 (fun f c => read_text fs f = Ok c)
      (List.filter (fun f => is_individual (name f)) files) contents
    /\ S' = S ++ parse_documents contents idx
    /\ idx' = (idx + Z.of_nat (length (parse_documents contents idx)))%Z.
Proof.
  revert S idx. induction files as [|f rest IH]; intros S idx H; simpl in H.
  - injection H as <- <-. exists []. simpl.
    rewrite app_nil_r, Z.add_0_r. repeat split. constructor.
  - simpl. unfold is_individual at 1. fold consolidated_names in H.
    destruct (bool_decide (name f ∈ consolidated_names)); simpl.
    + apply IH, H.
    + destruct (read_text fs f) as [c|e] eqn:Hc; simpl in H; [|discriminate].
      destruct (IH _ _ H) as (contents & Hall & -> & ->).
      exists (c :: contents). simpl. split; [constructor; assumption|].
      rewrite <- app_assoc, length_app, Nat2Z.inj_add, Z.add_assoc.
      split; reflexivity.
Qed.

Lemma sorted_glob_individual (fs : store) (stories_dir : path) :
  is_dir fs stories_dir = true ->
  List.filter (fun f => is_individual (name f)) (sorted_glob fs stories_dir ".md")
  = individual_story_files fs stories_dir.
Proof.
  intros Hd. unfold individual_story_files, individual_story_names, sorted_glob.
  rewrite Hd.
  induction (merge_sort _ _) as [|n l IH]; simpl; [reflexivity|].
  rewrite name_snoc. destruct (is_individual n); simpl; rewrite IH; reflexivity.
Qed.

(** C7.  The ids of a plan are [bmad-001], [bmad-002], ... in the order
    of its subtasks, the number counted from 1 and padded with zeros to
    three digits: the plan holds the subtasks of the consolidated source
    first and then those of each individual story file, the files being
    the [.md] entries of the stories directory taken in the order of their
    names, the consolidated file names left out, and every text is parsed
    from the index at which the one before it ends. *)
Theorem plan_subtask_ids (json_dumps : plan -> string) (now_isoformat : string)
    (fs fs' : store) (spec_dir : path) (p : plan) :
  stories_to_implementation_plan json_dumps now_isoformat fs spec_dir
    = Ok (p, fs') ->
  let stories_dir := (spec_dir ++ [Config.BMAD_ARTIFACTS_SUBDIR]) ++ ["stories"] in
  numbered 0 (plan_subtasks p)
  /\ (forall i t, plan_subtasks p !! i = Some t -> i < 999 ->
        exists digits, id t = "bmad-" +:+ digits /\ String.length digits = 3)
  /\ StronglySorted str_le (map name (individual_story_files fs stories_dir))
  /\ (is_dir fs stories_dir = true ->
      forall n, n ∈ individual_story_names fs stories_dir <->
        is_Some (fs !! (stories_dir ++ [n])) /\ ends_with ".md" n = true
        /\ n ∉ consolidated_names)
  /\ exists src contents,
       source_content fs spec_dir = Ok src
       /\ Forall2 (fun f c => read_text fs f = Ok c)
            (individual_story_files fs stories_dir) contents
       /\ plan_subtasks p = parse_documents (src :: contents) 0.
Proof.
  intros H. cbv zeta.
  assert (Hstruct : exists src contents,
       source_content fs spec_dir = Ok src
       /\ Forall2 (fun f c => read_text fs f = Ok c)
            (individual_story_files fs
               ((spec_dir ++ [Config.BMAD_ARTIFACTS_SUBDIR]) ++ ["stories"]))
            contents
       /\ plan_subtasks p = parse_documents (src :: contents) 0).
  { unfold stories_to_implementation_plan in H.
    rewrite (joinpath_proper spec_dir Config.BMAD_ARTIFACTS_SUBDIR) in H by discriminate.
    rewrite (joinpath_proper _ "stories") in H by discriminate.
    destruct (source_content fs spec_dir) as [src|e]; simpl in H; [|discriminate].
    exists src.
    assert (Hsrc : (if truthy src
                    then (_parse_stories_from_markdown src 0,
                          (0 + Z.of_nat (length (_parse_stories_from_markdown src 0)))%Z)
                    else ([], 0%Z))
                   = (_parse_stories_from_markdown src 0,
                      (0 + Z.of_nat (length (_parse_stories_from_markdown src 0)))%Z)).
    { destruct src; reflexivity. }
    rewrite Hsrc in H. clear Hsrc.
    destruct (is_dir fs _) eqn:Hd.
    - destruct (story_files fs _ _ _) as [[S' idx']|e] eqn:Hfiles;
        simpl in H; [|discriminate].
      destruct (write_text fs _ _) as [fs1|e]; simpl in H; [|discriminate].
      injection H as <- <-.
      destruct (story_files_spec _ _ _ _ _ _ Hfiles) as (contents & Hall & -> & _).
      rewrite (sorted_glob_individual _ _ Hd) in Hall.
      exists contents. split; [reflexivity|]. split; [exact Hall|reflexivity].
    - simpl in H.
      destruct (write_text fs _ _) as [fs1|e]; simpl in H; [|discriminate].
      injection H as <- <-. exists [].
      unfold individual_story_files, individual_story_names. rewrite Hd.
      split; [reflexivity|]. split; [constructor|]. simpl.
      rewrite app_nil_r. reflexivity. }
  assert (Hnum : numbered 0 (plan_subtasks p)).
  { destruct Hstruct as (src & contents & _ & _ & ->).
    apply parse_documents_numbered. }
  split; [exact Hnum|]. split; [|split; [|split]].
  - intros i t Hi Hlt. eexists. split; [apply (Hnum i t Hi)|].
    apply format_03d_width. lia.
  - apply individual_story_files_sorted.
  - intros Hd n. apply individual_story_files_elem, Hd.
  - exact Hstruct.
Qed.


Lemma plan_subtask_ids_witness :
  exists fs',
    stories_to_implementation_plan (fun _ => "{}") "2026-01-01T00:00:00"
      two_and_one_store ["spec"] = Ok (two_and_one_plan, fs')
    /\ map id (plan_subtasks two_and_one_plan)
       = ["bmad-001"; "bmad-002"; "bmad-003"]
    /\ numbered 0 (plan_subtasks two_and_one_plan).
Proof.
  destruct (stories_to_implementation_plan (fun _ => "{}") "2026-01-01T00:00:00"
              two_and_one_store ["spec"]) as [[p fs']|e] eqn:E.
  - pose proof (plan_subtask_ids _ _ _ _ _ _ E) as [Hnum _].
    apply (f_equal (fun r => match r with Ok (p, _) => Some p | Raise _ => None end)) in E.
    vm_compute in E. injection E as <-.
    exists fs'. split; [reflexivity|]. split; [reflexivity|]. exact Hnum.
  - apply (f_equal (fun r => match r with Ok _ => true | Raise _ => false end)) in E.
    vm_compute in E. discriminate E.
Defined.

(** ** The workflow directory *)

(** C4.  Directory resolution fails in two ways only.  Without a workflow
    name and with a phase that the table does not hold, it raises
    [ValueError], the configuration error of the design document;
    otherwise it names the directory root/phaseDir/workflowName, raises
    [FileNotFoundError] when that is no directory and returns it when it
    is.  What it raises, [load_workflow] raises. *)
Theorem workflow_dir_failures (yaml_safe_load : string -> result Workflows.yaml_value)
    (BMAD_WORKFLOWS_DIR : path) (fs : Workflows.node) (phase : string)
    (workflow_name : option string) (workflows_dir : option path) :
  let root := default BMAD_WORKFLOWS_DIR workflows_dir in
  let resolved :=
    Workflows.resolve_workflow_dir BMAD_WORKFLOWS_DIR fs phase workflow_name
      workflows_dir in
  (workflow_target root phase workflow_name = None
   <-> workflow_name = None /\ Config.PHASE_WORKFLOW_MAP !! phase = None)
  /\ (workflow_target root phase workflow_name = None
      -> resolved = Raise ValueError)
  /\ (forall d, workflow_target root phase workflow_name = Some d ->
        Workflows.is_dir fs d = false -> resolved = Raise FileNotFoundError)
  /\ (forall d, workflow_target root phase workflow_name = Some d ->
        Workflows.is_dir fs d = true -> resolved = Ok d)
  /\ (forall e, resolved = Raise e ->
        (e = ValueError \/ e = FileNotFoundError)
        /\ Workflows.load_workflow yaml_safe_load BMAD_WORKFLOWS_DIR fs phase
             workflow_name workflows_dir = Raise e).
Proof.
  cbv zeta. unfold workflow_target, Workflows.load_workflow,
    Workflows.resolve_workflow_dir.
  destruct workflow_name as [n|];
    [|destruct (Config.PHASE_WORKFLOW_MAP !! phase) as [[d n]|]].
  - split; [split; [discriminate|intros [? _]; discriminate]|].
    split; [discriminate|].
    split; [intros d [= <-] ->; reflexivity|].
    split; [intros d [= <-] ->; reflexivity|].
    intros e. destruct (Workflows.is_dir fs _); [discriminate|].
    intros [= <-]. split; [auto|reflexivity].
  - split; [split; [discriminate|intros [_ ?]; discriminate]|].
    split; [discriminate|].
    split; [intros d' [= <-] ->; reflexivity|].
    split; [intros d' [= <-] ->; reflexivity|].
    intros e. destruct (Workflows.is_dir fs _); [discriminate|].
    intros [= <-]. split; [auto|reflexivity].
  - split; [split; auto|].
    split; [reflexivity|].
    split; [discriminate|]. split; [discriminate|].
    intros e [= <-]. split; [auto|reflexivity].
Qed.

(** ** Reference resolution *)

Lemma resolve_glob_candidates (fs : Workflows.node) (d : path) (keys : list string) :
  Workflows.resolve_glob fs d keys = head (glob_candidates fs d keys).
Proof.
  unfold glob_candidates. induction keys as [|key rest IH]; simpl; [reflexivity|].
  destruct (Workflows.glob fs d key ".md") as [|p l]; simpl; [|reflexivity].
  destruct (Workflows.glob fs d key ".xml") as [|p l]; simpl; [|reflexivity].
  exact IH.
Qed.

Lemma ends_with_app (ext s : string) :
  ends_with ext s = true <-> exists b, s = b +:+ ext.
Proof.
  induction s as [|c t IH]; simpl.
  - rewrite orb_false_r, bool_decide_eq_true. split.
    + intros <-. exists "". reflexivity.
    + intros [[|? ?] H]; [exact H|discriminate].
  - rewrite orb_true_iff, bool_decide_eq_true, IH. split.
    + intros [<-|[b ->]]; [exists ""|exists (String c b)]; reflexivity.
    + intros [[|c' b] H].
      * left. exact H.
      * right. rewrite app_String in H. injection H as -> ->. eauto.
Qed.

Lemma prefix_of_app (p r : string) : String.prefix p (p +:+ r) = true.
Proof.
  induction p as [|c p IH]; [destruct r; reflexivity|].
  rewrite app_String. simpl. destruct (ascii_dec c c); [exact IH|contradiction].
Qed.

Lemma slice_from_app (p r : string) : slice_from (String.length p) (p +:+ r) = r.
Proof. induction p as [|c p IH]; [destruct r; reflexivity|exact IH]. Qed.

(** The pattern [*<key>*<ext>] matches the names that hold [key] and,
    after it, end with [ext]. *)
Lemma glob_match_spec (key ext n : string) :
  Workflows.glob_match key ext n = true
  <-> exists a b, n = a +:+ key +:+ b +:+ ext.
Proof.
  induction n as [|c t IH].
  - change (Workflows.glob_match key ext "")
      with (String.prefix key ""
            && ends_with ext (slice_from (String.length key) "") || false).
    rewrite orb_false_r, andb_true_iff. split.
    + intros [H1 H2]. apply prefix_app in H1 as [r Hr].
      rewrite Hr, slice_from_app in H2. apply ends_with_app in H2 as [b ->].
      exists "", b. exact Hr.
    + intros ([|? ?] & b & H); [|discriminate].
      rewrite app_Empty in H. rewrite H, prefix_of_app, slice_from_app.
      split; [reflexivity|]. apply ends_with_app. eauto.
  - change (Workflows.glob_match key ext (String c t))
      with (String.prefix key (String c t)
            && ends_with ext (slice_from (String.length key) (String c t))
            || Workflows.glob_match key ext t).
    rewrite orb_true_iff, andb_true_iff, IH. split.
    + intros [[H1 H2]|(a & b & ->)].
      * apply prefix_app in H1 as [r Hr].
        rewrite Hr, slice_from_app in H2. apply ends_with_app in H2 as [b ->].
        exists "", b. exact Hr.
      * exists (String c a), b. reflexivity.
    + intros ([|c' a] & b & H).
      * left. rewrite app_Empty in H. rewrite H, prefix_of_app, slice_from_app.
        split; [reflexivity|]. apply ends_with_app. eauto.
      * right. rewrite app_String in H. injection H as -> ->. eauto.
Qed.

(** C1, as the code has it.  When no key of the data and no conventional
    file name resolves the reference, the result is the first match, in
    the order in which the directory is enumerated, of the first pattern
    that matches an entry; the patterns are tried key by key, [*<key>*.md]
    before [*<key>*.xml].  There is a result as soon as one pattern
    matches an entry. *)
Theorem glob_fallback (fs : Workflows.node) (d : path)
    (data : gmap string Workflows.pyval) (keys : list string) :
  Workflows.resolve_yaml_keys fs d data keys = None ->
  Workflows.resolve_convention fs d keys = None ->
  Workflows._resolve_ref fs d data keys = head (glob_candidates fs d keys)
  /\ (glob_candidates fs d keys <> [] ->
      exists p, Workflows._resolve_ref fs d data keys = Some p
                /\ p ∈ glob_candidates fs d keys).
Proof.
  intros Hy Hc. unfold Workflows._resolve_ref.
  rewrite Hy, Hc, resolve_glob_candidates. split; [reflexivity|].
  destruct (glob_candidates fs d keys) as [|p l]; [contradiction|].
  intros _. exists p. split; [reflexivity|]. left.
Qed.

Lemma glob_fallback_witness :
  Workflows.resolve_yaml_keys two_templates ["create-prd"] ∅ ["template"] = None /\
  Workflows.resolve_convention two_templates ["create-prd"] ["template"] = None /\
  Workflows._resolve_ref two_templates ["create-prd"] ∅ ["template"]
  = Some ["create-prd"; "b-template.md"].
Proof.
  split; [reflexivity|]. split; [reflexivity|].
  exact (proj1 (glob_fallback two_templates ["create-prd"] ∅ ["template"]
                  eq_refl eq_refl)).
Defined.

(** C1, as stated, fails, in two ways.  In [two_templates] both files
    match a template pattern, the name [a-template.xml] comes before
    [b-template.md], and the reference resolves to [b-template.md], the
    match of the pattern tried first.  In [reversed_listing] both files
    match [*template*.md], the directory lists [z-template.md] first, and
    the reference resolves to it: the matches of a pattern are not
    sorted. *)
Lemma glob_not_lexicographic :
  (Workflows.resolve_yaml_keys two_templates ["create-prd"] ∅ ["template"] = None /\
   Workflows.resolve_convention two_templates ["create-prd"] ["template"] = None /\
   Workflows._resolve_ref two_templates ["create-prd"] ∅ ["template"]
   = Some ["create-prd"; "b-template.md"] /\
   lexicographically_first_match two_templates ["create-prd"] ["template"]
   = Some ["create-prd"; "a-template.xml"])
  /\
  (Workflows.resolve_yaml_keys reversed_listing ["create-prd"] ∅ ["template"] = None /\
   Workflows.resolve_convention reversed_listing ["create-prd"] ["template"] = None /\
   Workflows._resolve_ref reversed_listing ["create-prd"] ∅ ["template"]
   = Some ["create-prd"; "z-template.md"] /\
   lexicographically_first_match reversed_listing ["create-prd"] ["template"]
   = Some ["create-prd"; "a-template.md"]).
Proof. repeat split; vm_compute; reflexivity. Qed.

(** In a directory that is enumerated in the order of the names, the first
    match of a pattern is the least one. *)
Lemma glob_first_least (fs : Workflows.node) (d : path)
    (es : list (string * Workflows.node)) (key ext : string) (p : path)
    (l : list path) :
  Workflows.stat fs d = Some (Workflows.Dir es) ->
  StronglySorted str_le (map fst es) ->
  Workflows.glob fs d key ext = p :: l ->
  Forall (fun q => str_le (name p) (name q)) l.
Proof.
  intros Hd Hs Hg. unfold Workflows.glob in Hg. rewrite Hd in Hg.
  apply (StronglySorted_filter _ (Workflows.glob_match key ext)) in Hs.
  destruct (List.filter _ _) as [|n ns]; [discriminate|].
  simpl in Hg. injection Hg as <- <-.
  apply StronglySorted_inv in Hs as [_ Hn].
  rewrite name_snoc. apply Forall_fmap. simpl.
  eapply Forall_impl; [exact Hn|]. intros x Hx. simpl. rewrite name_snoc. exact Hx.
Qed.

(** ** The result of the loader *)

Lemma resolve_yaml_keys_ext (fs : Workflows.node) (d : path)
    (data data' : gmap string Workflows.pyval) (keys : list string) :
  (forall k, k ∈ keys -> data' !! k = data !! k) ->
  Workflows.resolve_yaml_keys fs d data' keys
  = Workflows.resolve_yaml_keys fs d data keys.
Proof.
  induction keys as [|key rest IH]; intros H; simpl; [reflexivity|].
  rewrite (H key) by left. rewrite IH; [reflexivity|].
  intros k Hk. apply H. right. exact Hk.
Qed.

(** The resolution reads the data at its keys only. *)
Lemma resolve_ref_ext (fs : Workflows.node) (d : path)
    (data data' : gmap string Workflows.pyval) (keys : list string) :
  (forall k, k ∈ keys -> data' !! k = data !! k) ->
  Workflows._resolve_ref fs d data' keys = Workflows._resolve_ref fs d data keys.
Proof.
  intros H. unfold Workflows._resolve_ref.
  rewrite (resolve_yaml_keys_ext fs d data data' keys H). reflexivity.
Qed.

Lemma dict_update_lookup (items : list (string * Workflows.yaml_value))
    (d : gmap string Workflows.pyval) (k : string) :
  fold_left (fun m kv => <[kv.1 := Workflows.PData kv.2]> m) items d !! k
  = match yaml_lookup k items with
    | Some v => Some (Workflows.PData v)
    | None => d !! k
    end.
Proof.
  revert d. induction items as [|[k' v] rest IH]; intros d; simpl; [reflexivity|].
  rewrite IH. destruct (yaml_lookup k rest); [reflexivity|].
  case_bool_decide as Hk.
  - subst. apply lookup_insert_eq.
  - apply lookup_insert_ne. exact Hk.
Qed.

(** C9.  Once the workflow directory is found, the three path entries of
    the result are what the resolution computes from the directory and the
    loaded data: they are set after the merge, and the resolution reads the
    data at its own keys only, so a key of one of these names in
    [workflow.yaml] has no effect.  A key [workflow_dir] of [workflow.yaml]
    takes the place of the directory in the result, and the resolution
    still runs on the directory itself. *)
Theorem resolved_paths_override
    (yaml_safe_load : string -> result Workflows.yaml_value)
    (BMAD_WORKFLOWS_DIR : path) (fs : Workflows.node) (phase : string)
    (workflow_name : option string) (workflows_dir : option path) (dir : path) :
  Workflows.resolve_workflow_dir BMAD_WORKFLOWS_DIR fs phase workflow_name
    workflows_dir = Ok dir ->
  let resolved data keys :=
    Workflows.of_optional_path (Workflows._resolve_ref fs dir data keys) in
  Workflows.load_workflow yaml_safe_load BMAD_WORKFLOWS_DIR fs phase
    workflow_name workflows_dir
  = (let* data := Workflows.load_definition yaml_safe_load fs dir in
     Ok (<["template_path" := resolved data ["template"]]>
          (<["checklist_path" := resolved data ["validation"; "checklist"]]>
             (<["instructions_path" := resolved data ["instructions"]]> data))))
  /\ (forall result,
        Workflows.load_workflow yaml_safe_load BMAD_WORKFLOWS_DIR fs phase
          workflow_name workflows_dir = Ok result ->
        exists data,
          Workflows.load_definition yaml_safe_load fs dir = Ok data
          /\ result !! "instructions_path" = Some (resolved data ["instructions"])
          /\ result !! "checklist_path"
             = Some (resolved data ["validation"; "checklist"])
          /\ result !! "template_path" = Some (resolved data ["template"])
          /\ result !! "workflow_dir" = data !! "workflow_dir")
  /\ (forall data data' keys,
        (forall k, k ∈ keys -> data' !! k = data !! k) ->
        resolved data' keys = resolved data keys)
  /\ (forall raw items,
        Workflows.read_text fs (dir ++ ["workflow.yaml"]) = Ok raw ->
        yaml_safe_load raw = Ok (Workflows.YMap items) ->
        exists data,
          Workflows.load_definition yaml_safe_load fs dir = Ok data
          /\ data !! "workflow_dir"
             = Some (match yaml_lookup "workflow_dir" items with
                     | Some v => Workflows.PData v
                     | None => Workflows.PPath dir
                     end)).
Proof.
  intros Hdir. cbv zeta.
  assert (Hload :
    Workflows.load_workflow yaml_safe_load BMAD_WORKFLOWS_DIR fs phase
      workflow_name workflows_dir
    = (let* data := Workflows.load_definition yaml_safe_load fs dir in
       Ok (<["template_path" :=
              Workflows.of_optional_path (Workflows._resolve_ref fs dir data ["template"])]>
            (<["checklist_path" :=
                Workflows.of_optional_path
                  (Workflows._resolve_ref fs dir data ["validation"; "checklist"])]>
               (<["instructions_path" :=
                   Workflows.of_optional_path
                     (Workflows._resolve_ref fs dir data ["instructions"])]> data))))).
  { unfold Workflows.load_workflow. rewrite Hdir. simpl bind.
    destruct (Workflows.load_definition yaml_safe_load fs dir) as [data|e];
      simpl; [|reflexivity].
    do 2 f_equal.
    - f_equal. apply resolve_ref_ext. intros k Hk.
      apply list_elem_of_In in Hk. simpl in Hk.
      destruct Hk as [<-|[]]. rewrite !lookup_insert_ne by discriminate.
      reflexivity.
    - f_equal. f_equal. apply resolve_ref_ext. intros k Hk.
      apply list_elem_of_In in Hk. simpl in Hk.
      destruct Hk as [<-|[<-|[]]]; rewrite !lookup_insert_ne by discriminate;
        reflexivity. }
  split; [exact Hload|]. split; [|split].
  - intros result Hres. rewrite Hload in Hres.
    destruct (Workflows.load_definition yaml_safe_load fs dir) as [data|e];
      simpl in Hres; [|discriminate].
    injection Hres as <-. exists data. split; [reflexivity|].
    rewrite lookup_insert_ne, lookup_insert_ne, lookup_insert_eq by discriminate.
    rewrite lookup_insert_ne, lookup_insert_eq by discriminate.
    rewrite lookup_insert_eq.
    rewrite !lookup_insert_ne by discriminate. repeat split.
  - intros data data' keys H. f_equal. apply resolve_ref_ext, H.
  - intros raw items Hraw Hyaml. unfold Workflows.load_definition.
    rewrite (joinpath_proper dir "workflow.yaml") by discriminate.
    assert (Hex : Workflows.exists_ fs (dir ++ ["workflow.yaml"]) = true).
    { unfold Workflows.exists_, Workflows.read_text in *.
      destruct (Workflows.stat fs _); [reflexivity|discriminate]. }
    rewrite Hex, Hraw. simpl bind. rewrite Hyaml. simpl bind.
    exists (fold_left (fun m kv => <[kv.1 := Workflows.PData kv.2]> m) items
              {[ "workflow_dir" := Workflows.PPath dir ]}).
    split.
    + destruct items; simpl; reflexivity.
    + rewrite dict_update_lookup.
      destruct (yaml_lookup "workflow_dir" items); [reflexivity|].
      apply lookup_singleton_eq.
Qed.

Lemma resolved_paths_override_witness :
  Workflows.resolve_workflow_dir ["workflows"] prd_workflows "prd" None
    (Some []) = Ok ["2-planning"; "create-prd"] /\
  exists result,
    Workflows.load_workflow prd_yaml ["workflows"] prd_workflows "prd" None
      (Some []) = Ok result
    /\ result !! "instructions_path"
       = Some (Workflows.PPath ["2-planning"; "create-prd"; "instructions.md"])
    /\ result !! "checklist_path"
       = Some (Workflows.PPath ["2-planning"; "create-prd"; "checklist.md"])
    /\ result !! "template_path" = Some Workflows.PNone
    /\ result !! "workflow_dir" = Some (Workflows.PData (Workflows.YStr "elsewhere")).
Proof.
  split; [reflexivity|].
  destruct (resolved_paths_override prd_yaml ["workflows"] prd_workflows "prd"
              None (Some []) ["2-planning"; "create-prd"] eq_refl)
    as (Hload & _ & _ & _).
  eexists. split; [exact Hload|].
  repeat split; vm_compute; reflexivity.
Defined.

(** ** Directories *)

(** What a successful [mkdir] leaves: the directories on the way exist, no
    other path changes, and what was there stays. *)
Lemma mkdir_from_spec (segs : list string) (base : path) (fs fs' : store) :
  mkdir_from base segs fs = Ok fs' ->
  (forall k, 1 <= k <= length segs -> fs' !! (base ++ take k segs) = Some Dir)
  /\ (forall q, (forall k, 1 <= k <= length segs -> q <> base ++ take k segs) ->
        fs' !! q = fs !! q)
  /\ (forall q x, fs !! q = Some x -> fs' !! q = Some x).
Proof.
  revert base fs. induction segs as [|seg rest IH]; intros base fs H.
  - injection H as <-. split; [simpl; lia|]. split; auto.
  - simpl in H.
    assert (Hstep : forall fs0 : store,
      fs0 !! (base ++ [seg]) = Some Dir ->
      (forall q, q <> base ++ [seg] -> fs0 !! q = fs !! q) ->
      (forall q x, fs !! q = Some x -> fs0 !! q = Some x) ->
      mkdir_from (base ++ [seg]) rest fs0 = Ok fs' ->
      (forall k, 1 <= k <= length (seg :: rest) ->
         fs' !! (base ++ take k (seg :: rest)) = Some Dir)
      /\ (forall q, (forall k, 1 <= k <= length (seg :: rest) ->
                       q <> base ++ take k (seg :: rest)) ->
            fs' !! q = fs !! q)
      /\ (forall q x, fs !! q = Some x -> fs' !! q = Some x)).
    { intros fs0 Hd Hne Hmono Hm.
      destruct (IH _ _ Hm) as (Hdirs & Hframe & Hkeep).
      split; [|split].
      - intros [|k] Hk; [lia|]. simpl. destruct k as [|k].
        + rewrite take_0. apply Hkeep. exact Hd.
        + change (base ++ seg :: take (S k) rest)
            with (base ++ [seg] ++ take (S k) rest).
          rewrite app_assoc. apply Hdirs. simpl in Hk. lia.
      - intros q Hq. rewrite Hframe.
        + apply Hne. specialize (Hq 1 ltac:(simpl; lia)).
          simpl in Hq. rewrite take_0 in Hq. exact Hq.
        + intros k Hk. rewrite <- app_assoc. apply (Hq (S k)). simpl. lia.
      - intros q x Hx. apply Hkeep, Hmono, Hx. }
    destruct (fs !! (base ++ [seg])) as [[c|]|] eqn:E; [discriminate| |].
    + apply (Hstep fs); auto.
    + apply (Hstep (<[base ++ [seg] := Dir]> fs)); [apply lookup_insert_eq| | |exact H].
      * intros q Hq. apply lookup_insert_ne. congruence.
      * intros q x Hx. rewrite lookup_insert_ne; [exact Hx|]. congruence.
Qed.

(** [mkdir] on directories that exist changes nothing. *)
Lemma mkdir_from_noop (segs : list string) (base : path) (fs : store) :
  (forall k, 1 <= k <= length segs -> fs !! (base ++ take k segs) = Some Dir) ->
  mkdir_from base segs fs = Ok fs.
Proof.
  revert base. induction segs as [|seg rest IH]; intros base H; [reflexivity|].
  simpl. pose proof (H 1 ltac:(simpl; lia)) as H1. simpl in H1.
  rewrite take_0 in H1. rewrite H1. apply IH.
  intros k Hk. rewrite <- app_assoc. apply (H (S k)). simpl. lia.
Qed.

Lemma mkdir_spec (p : path) (fs fs' : store) :
  mkdir fs p = Ok fs' ->
  (forall k, 1 <= k <= length p -> fs' !! take k p = Some Dir)
  /\ (forall q, length p < length q -> fs' !! q = fs !! q)
  /\ (forall q x, fs !! q = Some x -> fs' !! q = Some x).
Proof.
  intros H. destruct (mkdir_from_spec p [] fs fs' H) as (Hd & Hf & Hk).
  split; [exact Hd|]. split; [|exact Hk].
  intros q Hq. apply Hf. intros k Hk' ->. simpl in Hq.
  rewrite length_take in Hq. lia.
Qed.

Lemma mkdir_noop (p : path) (fs : store) :
  (forall k, 1 <= k <= length p -> fs !! take k p = Some Dir) ->
  mkdir fs p = Ok fs.
Proof. intros H. apply mkdir_from_noop. exact H. Qed.

(** ** The directory layout *)

Lemma take_all_snoc (p : path) (s : string) : take (length (p ++ [s])) (p ++ [s]) = p ++ [s].
Proof. apply firstn_all. Qed.

(** [save_artifact] in one piece: the directories, then the file, which
    must not be a directory. *)
Lemma save_artifact_unfold (fs : store) (spec_dir : path) (t c : string) :
  save_artifact fs spec_dir t c
  = (let* fm := mkdir fs (subdir_path spec_dir (artifact_subdir t)) in
     if is_dir fm (artifact_path spec_dir t) then Raise IsADirectoryError
     else Ok (<[artifact_path spec_dir t := File c]> fm, artifact_path spec_dir t)).
Proof.
  destruct (artifact_filename_proper t) as [Hf1 Hf2].
  assert (Hsub : artifact_subdir t <> "" /\ artifact_subdir t <> ".").
  { destruct (artifact_subdir_cases t) as [-> | [-> | ->]]; split; discriminate. }
  destruct Hsub as [Hs1 Hs2].
  unfold save_artifact, artifact_path, bmad_path, subdir_path.
  rewrite (joinpath_proper spec_dir Config.BMAD_ARTIFACTS_SUBDIR) by discriminate.
  rewrite (joinpath_proper _ _ Hs1 Hs2), (joinpath_proper _ _ Hf1 Hf2).
  destruct (mkdir fs _) as [fm|e] eqn:Hm; simpl; [|reflexivity].
  destruct (mkdir_spec _ _ _ Hm) as (Hd & _ & _).
  specialize (Hd (length ((spec_dir ++ [Config.BMAD_ARTIFACTS_SUBDIR])
                          ++ [artifact_subdir t]))).
  rewrite take_all_snoc in Hd. rewrite length_app in Hd. simpl in Hd.
  specialize (Hd ltac:(lia)).
  unfold write_text, is_dir. rewrite removelast_last, !stat_snoc, Hd.
  destruct (fm !! (_ ++ [artifact_filename t])) as [[x|]|]; reflexivity.
Qed.

Lemma mkdir_subdirs_spec (subdirs : list string) (root : path) (fs fs' : store) :
  Forall (fun s => s <> "" /\ s <> ".") subdirs ->
  mkdir_subdirs fs root subdirs = Ok fs' ->
  (forall s k, s ∈ subdirs -> 1 <= k <= length (root ++ [s]) ->
     fs' !! take k (root ++ [s]) = Some Dir)
  /\ (forall q, length root + 1 < length q -> fs' !! q = fs !! q)
  /\ (forall q x, fs !! q = Some x -> fs' !! q = Some x).
Proof.
  intros Hp. revert fs. induction Hp as [|s rest [Hs1 Hs2] _ IH]; intros fs H.
  - injection H as <-. split; [|auto]. intros s k Hs. apply elem_of_nil in Hs.
    contradiction.
  - simpl in H. rewrite (joinpath_proper _ _ Hs1 Hs2) in H.
    destruct (mkdir fs (root ++ [s])) as [fm|e] eqn:Hm; simpl in H; [|discriminate].
    destruct (mkdir_spec _ _ _ Hm) as (Hd & Hf & Hk).
    destruct (IH _ H) as (Hd' & Hf' & Hk').
    split; [|split].
    + intros s' k Hs' Hlen. apply elem_of_cons in Hs' as [->|Hs'].
      * apply Hk', Hd, Hlen.
      * apply Hd'; assumption.
    + intros q Hq. rewrite Hf' by exact Hq. apply Hf.
      rewrite length_app. simpl. lia.
    + intros q x Hx. apply Hk', Hk, Hx.
Qed.

Lemma mkdir_subdirs_noop (subdirs : list string) (root : path) (fs : store) :
  Forall (fun s => s <> "" /\ s <> ".") subdirs ->
  (forall s k, s ∈ subdirs -> 1 <= k <= length (root ++ [s]) ->
     fs !! take k (root ++ [s]) = Some Dir) ->
  mkdir_subdirs fs root subdirs = Ok fs.
Proof.
  intros Hp. induction Hp as [|s rest [Hs1 Hs2] _ IH]; intros H; [reflexivity|].
  simpl. rewrite (joinpath_proper _ _ Hs1 Hs2).
  rewrite mkdir_noop; simpl.
  - apply IH. intros s' k Hs' Hk. apply H; [right; exact Hs'|exact Hk].
  - intros k Hk. apply H; [left|exact Hk].
Qed.

Lemma layout_names_proper :
  Forall (fun s : string => s <> "" /\ s <> ".") ["planning"; "stories"; "reviews"].
Proof. repeat constructor; discriminate. Qed.

(** X1.  [create_bmad_structure] is idempotent: a second call returns the
    state the first one left, and raises what the first one raised. *)
Theorem create_bmad_structure_idempotent (fs : store) (spec_dir : path) :
  (let* fs1 := create_bmad_structure fs spec_dir in
   create_bmad_structure fs1 spec_dir)
  = create_bmad_structure fs spec_dir.
Proof.
  destruct (create_bmad_structure fs spec_dir) as [fs1|e] eqn:H; [|reflexivity].
  simpl. unfold create_bmad_structure in *.
  rewrite (joinpath_proper spec_dir Config.BMAD_ARTIFACTS_SUBDIR) in * by discriminate.
  destruct (mkdir_subdirs_spec _ _ _ _ layout_names_proper H) as (Hd & _ & _).
  apply mkdir_subdirs_noop; [apply layout_names_proper|exact Hd].
Qed.


(** [load_artifact] reads the store at the four places it searches. *)
Lemma load_artifact_ext (fs fs' : store) (spec_dir : path) (t : string) :
  (forall subdir, fs' !! bmad_path spec_dir subdir (artifact_filename t)
                  = fs !! bmad_path spec_dir subdir (artifact_filename t)) ->
  fs' !! subdir_path spec_dir (artifact_filename t)
  = fs !! subdir_path spec_dir (artifact_filename t) ->
  load_artifact fs' spec_dir t = load_artifact fs spec_dir t.
Proof.
  intros Hsub Hroot. destruct (artifact_filename_proper t) as [Hf1 Hf2].
  unfold load_artifact.
  rewrite (joinpath_proper spec_dir Config.BMAD_ARTIFACTS_SUBDIR) by discriminate.
  unfold bmad_path, subdir_path in *. simpl.
  rewrite !(joinpath_proper _ "planning"), !(joinpath_proper _ "stories"),
    !(joinpath_proper _ "reviews") by discriminate.
  rewrite !(joinpath_proper _ _ Hf1 Hf2).
  unfold exists_, read_text. rewrite !stat_snoc, !Hsub, Hroot. reflexivity.
Qed.

(** ** The directory layout and the artifacts *)








(** X4.  A save replaces: saving twice under one type leaves what saving
    the second content alone leaves, and fails as that fails. *)
Theorem save_artifact_overwrites (fs : store) (spec_dir : path) (t c1 c2 : string) :
  (let* saved := save_artifact fs spec_dir t c1 in
   save_artifact saved.1 spec_dir t c2)
  = save_artifact fs spec_dir t c2.
Proof.
  rewrite !save_artifact_unfold.
  destruct (mkdir fs (subdir_path spec_dir (artifact_subdir t))) as [fm|e] eqn:Hm;
    simpl; [|reflexivity].
  destruct (is_dir fm (artifact_path spec_dir t)) eqn:Hd; simpl; [reflexivity|].
  rewrite save_artifact_unfold.
  destruct (mkdir_spec _ _ _ Hm) as (Hdirs & _ & _).
  rewrite mkdir_noop.
  - simpl. unfold is_dir at 1. unfold artifact_path, bmad_path.
    rewrite stat_snoc, lookup_insert_eq, insert_insert_eq. reflexivity.
  - intros k Hk. rewrite lookup_insert_ne; [apply Hdirs, Hk|].
    intros Heq. apply (f_equal length) in Heq.
    unfold artifact_path, bmad_path, subdir_path in *.
    rewrite length_take, !length_app in Heq. rewrite !length_app in Hk.
    simpl in *. lia.
Qed.



(** ** The plan file *)

(** The state a plan builder leaves is the old one with the plan file. *)
Lemma plan_store_written (json_dumps : plan -> string)
    (now_isoformat : string) (fs fs' : store) (spec_dir : path) (p : plan) :
  stories_to_implementation_plan json_dumps now_isoformat fs spec_dir
    = Ok (p, fs') ->
  fs' = <[spec_dir ++ ["implementation_plan.json"] := File (json_dumps p)]> fs.
Proof.
  intros H. unfold stories_to_implementation_plan in H.
  rewrite (joinpath_proper spec_dir "implementation_plan.json") in H by discriminate.
  destruct (source_content fs spec_dir) as [src|e]; simpl in H; [|discriminate].
  destruct (if truthy src then _ else _) as [S idx].
  destruct (if is_dir fs _ then _ else _) as [[S' idx']|e];
    simpl in H; [|discriminate].
  unfold write_text in H.
  destruct (stat fs (removelast _)) as [[c|]|]; try discriminate.
  destruct (stat fs (spec_dir ++ _)) as [[c|]|]; try discriminate;
    simpl in H; injection H as <- <-; reflexivity.
Qed.

(** X6.  The plan builder writes the plan file and touches nothing else:
    the new state is the old one with the serialized plan at
    [implementation_plan.json], and every artifact loads as before. *)
Theorem plan_changes_only_plan_file (json_dumps : plan -> string)
    (now_isoformat : string) (fs fs' : store) (spec_dir : path) (p : plan) :
  stories_to_implementation_plan json_dumps now_isoformat fs spec_dir
    = Ok (p, fs') ->
  fs' = <[spec_dir ++ ["implementation_plan.json"] := File (json_dumps p)]> fs
  /\ (forall t, load_artifact fs' spec_dir t = load_artifact fs spec_dir t).
Proof.
  intros H. pose proof (plan_store_written _ _ _ _ _ _ H) as Hfs.
  split; [exact Hfs|]. intros t. subst fs'. apply load_artifact_ext.
  - intros subdir. apply lookup_insert_ne. intros Heq.
    apply (f_equal length) in Heq. unfold bmad_path in Heq.
    rewrite !length_app in Heq. simpl in Heq. lia.
  - apply lookup_insert_ne. intros Heq.
    apply (f_equal length) in Heq. unfold subdir_path in Heq.
    rewrite !length_app in Heq. simpl in Heq. lia.
Qed.

Lemma plan_changes_only_plan_file_witness :
  exists fs',
    stories_to_implementation_plan (fun _ => "{}") "2026-01-01T00:00:00"
      two_and_one_store ["spec"] = Ok (two_and_one_plan, fs')
    /\ fs' !! ["spec"; "implementation_plan.json"] = Some (File "{}")
    /\ load_artifact fs' ["spec"] "stories"
       = load_artifact two_and_one_store ["spec"] "stories".
Proof.
  destruct (stories_to_implementation_plan (fun _ => "{}") "2026-01-01T00:00:00"
              two_and_one_store ["spec"]) as [[p fs']|e] eqn:E.
  - destruct (plan_changes_only_plan_file _ _ _ _ _ _ E) as [Hfs Hload].
    apply (f_equal (fun r => match r with Ok (p, _) => Some p | Raise _ => None end)) in E.
    vm_compute in E. injection E as <-.
    exists fs'. split; [reflexivity|]. split; [|apply Hload].
    rewrite Hfs. apply lookup_insert_eq.
  - apply (f_equal (fun r => match r with Ok _ => true | Raise _ => false end)) in E.
    vm_compute in E. discriminate E.
Defined.

(** ** The story parser: whole records *)

Lemma lstrip_by_head (p : ascii -> bool) (s : string) :
  match lstrip_by p s with "" => True | String c _ => p c = false end.
Proof.
  induction s as [|c t IH]; simpl; [exact I|].
  destruct (p c) eqn:Hc; [exact IH|exact Hc].
Qed.

Lemma rstrip_by_head (p : ascii -> bool) (c : ascii) (t : string) :
  p c = false -> exists t', rstrip_by p (String c t) = String c t'.
Proof.
  intros Hc. simpl. destruct (rstrip_by p t); rewrite ?Hc; eauto.
Qed.

Lemma strip_idem (s : string) : strip (strip s) = strip s.
Proof.
  unfold strip at 1.
  assert (H : lstrip_by isspace (strip s) = strip s).
  { unfold strip. pose proof (lstrip_by_head isspace s) as Hh.
    destruct (lstrip_by isspace s) as [|c t]; [reflexivity|].
    destruct (rstrip_by_head isspace c t Hh) as [t' ->].
    simpl. rewrite Hh. reflexivity. }
  rewrite H. apply strip_rstrip.
Qed.

Lemma heading_text_strip (line : string) :
  strip (heading_text line) = heading_text line.
Proof. apply strip_idem. Qed.

(** Under an open heading, a line that opens no story adds to the body
    what [collect_body] says. *)
Lemma step_body (start : Z) (st : pstate) (line : string) (rest : list string) :
  opens_story line = false ->
  truthy (current_heading st) = true ->
  current_body_lines (step start st line)
    ++ collect_body (in_ac_section (step start st line)) rest
  = current_body_lines st ++ collect_body (in_ac_section st) (line :: rest).
Proof.
  intros H Ht. destruct (opens_story_false _ H) as [Hh|[Hh Hk]].
  - simpl collect_body. rewrite Hh. unfold step. cbv zeta.
    unfold is_heading_line in Hh. rewrite Hh.
    destruct (in_ac_section st && _) eqn:E1.
    + destruct (truthy (strip _)) eqn:E2; simpl; rewrite ?E1; reflexivity.
    + destruct (startswith (lower (strip line)) "ac:" || _) eqn:E2.
      * reflexivity.
      * rewrite Ht. simpl. rewrite <- app_assoc. reflexivity.
  - rewrite (step_non_story _ _ _ Hh Hk). simpl. rewrite Hh. reflexivity.
Qed.

Lemma run_body (start : Z) (body : list string) (st : pstate) :
  Forall (fun l => opens_story l = false) body ->
  truthy (current_heading st) = true ->
  current_body_lines (run start st body)
  = current_body_lines st ++ collect_body (in_ac_section st) body.
Proof.
  intros H. revert st. induction H as [|line rest Hl _ IH]; intros st Ht.
  - simpl. rewrite app_nil_r. reflexivity.
  - unfold run in *. simpl fold_left.
    destruct (step_span start st line [] Hl) as (_ & Hc & _).
    rewrite IH by (rewrite Hc; exact Ht).
    apply step_body; assumption.
Qed.

(** X7.  One story, whole: when the text is some lines that open no story,
    then a heading that opens one, then lines that open none, the parser
    returns exactly one subtask.  Its id follows the start index, its
    description is the text of the heading, its details are the body lines
    of the span joined by line feeds and stripped, its criteria are those
    of the span, and the other fields are the constants of the code.  The
    lines before the heading leave no trace. *)
Theorem story_record (content : string) (start : Z)
    (pre : list string) (h : string) (body : list string) :
  splitlines content = pre ++ h :: body ->
  Forall (fun l => opens_story l = false) pre ->
  opens_story h = true ->
  Forall (fun l => opens_story l = false) body ->
  _parse_stories_from_markdown content start
  = [ {| id := "bmad-" +:+ format_03d (start + 1);
         description := heading_text h;
         details := strip (join newline (collect_body false body));
         service := "all";
         files_to_modify := [];
         files_to_create := [];
         patterns_from := [];
         acceptance_criteria := collect_ac false body |} ].
Proof.
  intros Hsplit Hpre Hh Hbody.
  unfold _parse_stories_from_markdown. rewrite Hsplit.
  rewrite (parse_lines_app pre h body start Hh).
  rewrite (parse_lines_no_story pre start Hpre). simpl length.
  rewrite Z.add_0_r, app_nil_l.
  unfold parse_lines. simpl fold_left. rewrite (step_opens _ _ _ Hh).
  change (subtasks (flush start initial)) with (@nil subtask).
  set (st0 := {| subtasks := []; current_heading := heading_text h;
                 current_body_lines := []; current_ac := [];
                 in_ac_section := false |}).
  assert (Ht : truthy (current_heading st0) = true).
  { apply andb_true_iff in Hh as [Hh _]. apply heading_text_truthy, Hh. }
  destruct (run_span start body st0 Hbody) as (Hs & Hc & Ha).
  pose proof (run_body start body st0 Hbody Ht) as Hb.
  unfold run in *. unfold flush. rewrite Hc, Ht, Hs, Ha, Hb. simpl.
  rewrite heading_text_strip, Z.add_0_r. reflexivity.
Qed.

Lemma story_record_witness :
  let content :=
    "preamble" +:+ newline +:+ "## Login" +:+ newline +:+ "Users sign in."
    +:+ newline +:+ "### Acceptance Criteria" +:+ newline +:+ "- token issued"
    +:+ newline +:+ "### Notes" +:+ newline +:+ "- keep it short" in
  splitlines content
  = ["preamble"] ++ "## Login"
      :: ["Users sign in."; "### Acceptance Criteria"; "- token issued";
          "### Notes"; "- keep it short"]
  /\ _parse_stories_from_markdown content 4
     = [ {| id := "bmad-005"; description := "Login";
            details := "Users sign in." +:+ newline +:+ "- keep it short";
            service := "all"; files_to_modify := []; files_to_create := [];
            patterns_from := []; acceptance_criteria := ["token issued"] |} ].
Proof.
  cbv zeta. split; [reflexivity|].
  apply (story_record
    ("preamble" +:+ newline +:+ "## Login" +:+ newline +:+ "Users sign in."
     +:+ newline +:+ "### Acceptance Criteria" +:+ newline +:+ "- token issued"
     +:+ newline +:+ "### Notes" +:+ newline +:+ "- keep it short")
    4 ["preamble"] "## Login"
    ["Users sign in."; "### Acceptance Criteria"; "- token issued";
     "### Notes"; "- keep it short"]);
    [reflexivity|repeat constructor|reflexivity|repeat constructor].
Defined.

(** *** Descriptions *)

Lemma flush_descriptions (start : Z) (st : pstate) :
  map description (subtasks (flush start st)) = descriptions st.
Proof.
  unfold flush, descriptions. destruct (truthy (current_heading st)); simpl.
  - rewrite map_app. reflexivity.
  - rewrite app_nil_r. reflexivity.
Qed.

Lemma step_descriptions (start : Z) (st : pstate) (line : string) :
  descriptions (step start st line)
  = descriptions st
    ++ (if opens_story line then [heading_text line] else []).
Proof.
  destruct (opens_story line) eqn:E.
  - rewrite (step_opens _ _ _ E). unfold descriptions at 1.
    cbn [subtasks current_heading].
    apply andb_true_iff in E as [E _].
    rewrite (heading_text_truthy _ E), flush_descriptions, heading_text_strip.
    reflexivity.
  - destruct (step_span start st line [] E) as (H1 & H2 & _).
    unfold descriptions. rewrite H1, H2, app_nil_r. reflexivity.
Qed.

Lemma run_descriptions (start : Z) (lines : list string) (st : pstate) :
  descriptions (run start st lines)
  = descriptions st ++ map heading_text (List.filter opens_story lines).
Proof.
  revert st. induction lines as [|line rest IH]; intros st; simpl.
  - rewrite app_nil_r. reflexivity.
  - unfold run in *. simpl fold_left. rewrite IH, step_descriptions.
    destruct (opens_story line); simpl; rewrite <- ?app_assoc, ?app_nil_r;
      reflexivity.
Qed.

Lemma flush_bridge_fields (start : Z) (st : pstate) :
  Forall bridge_fields (subtasks st) ->
  Forall bridge_fields (subtasks (flush start st)).
Proof.
  intros H. unfold flush. destruct (truthy (current_heading st)); simpl; [|exact H].
  apply Forall_app. split; [exact H|].
  constructor; [|constructor]. repeat split.
Qed.

Lemma run_bridge_fields (start : Z) (lines : list string) (st : pstate) :
  Forall bridge_fields (subtasks st) ->
  Forall bridge_fields (subtasks (run start st lines)).
Proof.
  revert st. induction lines as [|line rest IH]; intros st H; [exact H|].
  unfold run in *. simpl. apply IH.
  destruct (opens_story line) eqn:E.
  - rewrite (step_opens _ _ _ E). simpl. apply flush_bridge_fields, H.
  - destruct (step_span start st line [] E) as (-> & _). exact H.
Qed.

(** X8.  The descriptions of the subtasks are the texts of the headings
    that open a story, in the order of the text, whatever the start index;
    and every subtask has the service [all] and empty file and pattern
    lists. *)
Theorem descriptions_in_order (content : string) (start : Z) :
  map description (_parse_stories_from_markdown content start)
  = map heading_text (List.filter opens_story (splitlines content))
  /\ Forall bridge_fields (_parse_stories_from_markdown content start).
Proof.
  unfold _parse_stories_from_markdown, parse_lines.
  change (fold_left (step start) (splitlines content) initial)
    with (run start initial (splitlines content)).
  split.
  - rewrite flush_descriptions, run_descriptions. reflexivity.
  - apply flush_bridge_fields, run_bridge_fields. constructor.
Qed.

(** *** Texts put end to end *)

Lemma splitlines_from_app (a b cur : string) :
  splitlines_from cur (a +:+ String "010" b)
  = splitlines_from cur (a +:+ String "010" "") ++ splitlines b.
Proof.
  revert cur.
  induction a as [a IH] using
    (well_founded_induction (Wf_nat.well_founded_ltof _ String.length)).
  unfold Wf_nat.ltof in IH. intros cur. destruct a as [|c t].
  - rewrite !app_Empty. simpl. destruct b; reflexivity.
  - rewrite !app_String. simpl splitlines_from.
    destruct (is_linebreak c) eqn:Hc.
    + destruct t as [|c' t'].
      * rewrite !app_Empty.
        destruct (N_of_ascii c =? 13)%N; cbn [andb].
        -- reflexivity.
        -- specialize (IH "" ltac:(simpl; lia) "").
           rewrite !app_Empty in IH.
           change (N_of_ascii "010" =? 10)%N with true.
           cbv iota. rewrite IH. reflexivity.
      * rewrite !app_String.
        destruct ((N_of_ascii c =? 13)%N && _) eqn:Hcr.
        -- rewrite (IH t' ltac:(simpl; lia) ""). reflexivity.
        -- specialize (IH (String c' t') ltac:(simpl; lia) "").
           rewrite !app_String in IH. rewrite IH. reflexivity.
    + apply (IH t ltac:(simpl; lia)).
Qed.

(** X9.  Two texts put end to end parse as the two texts parsed one after
    the other: when the first ends with a line feed and the second starts
    with a line that opens a story, the subtasks of the whole are those of
    the first followed by those of the second, the second numbered after
    the first.  A story text cut at a story heading can so be parsed piece
    by piece, as the plan builder does with the story files. *)
Theorem parse_concatenation (a b : string) (start : Z)
    (h : string) (rest : list string) :
  splitlines b = h :: rest ->
  opens_story h = true ->
  _parse_stories_from_markdown (a +:+ newline +:+ b) start
  = parse_documents [a +:+ newline; b] start.
Proof.
  intros Hb Hh. unfold _parse_stories_from_markdown, splitlines at 1.
  unfold newline. rewrite app_String, app_Empty, splitlines_from_app, Hb.
  rewrite (parse_lines_app _ h rest start Hh).
  simpl parse_documents. unfold _parse_stories_from_markdown.
  fold (splitlines (a +:+ newline)). rewrite Hb, app_nil_r. reflexivity.
Qed.

Lemma parse_concatenation_witness :
  let a := "## One" +:+ newline +:+ "Given a" in
  let b := "## Two" +:+ newline +:+ "ac: b" in
  splitlines b = ["## Two"; "ac: b"]
  /\ _parse_stories_from_markdown (a +:+ newline +:+ b) 0
     = parse_documents [a +:+ newline; b] 0
  /\ map id (parse_documents [a +:+ newline; b] 0) = ["bmad-001"; "bmad-002"].
Proof.
  cbv zeta. split; [reflexivity|]. split; [|reflexivity].
  apply (parse_concatenation ("## One" +:+ newline +:+ "Given a")
           ("## Two" +:+ newline +:+ "ac: b") 0 "## Two" ["ac: b"]);
    reflexivity.
Defined.

Lemma joinpath_cases (d : path) (n : string) :
  joinpath d n = d \/ joinpath d n = d ++ [n].
Proof. unfold joinpath. destruct (_ || _); auto. Qed.

(** ** The workflows of a phase *)

(** X10.  The list of the workflows of a phase is sorted in the order of
    strings, and it holds exactly the names of the entries of the phase
    directory that are directories and whose name starts with no dot.  It
    is empty when the phase directory is missing. *)
Theorem list_workflows_spec (BMAD_WORKFLOWS_DIR : path) (fs : Workflows.node)
    (phase : string) (workflows_dir : option path) :
  let phase_dir := joinpath (default BMAD_WORKFLOWS_DIR workflows_dir) phase in
  let listed := list_workflows BMAD_WORKFLOWS_DIR fs phase workflows_dir in
  StronglySorted str_le listed
  /\ (forall n, n ∈ listed <->
        (phase_dir ++ [n]) ∈ iterdir fs phase_dir
        /\ Workflows.is_dir fs (phase_dir ++ [n]) = true
        /\ startswith n "." = false)
  /\ (Workflows.is_dir fs phase_dir = false -> listed = []).
Proof.
  cbv zeta. unfold list_workflows.
  set (phase_dir := joinpath (default BMAD_WORKFLOWS_DIR workflows_dir) phase).
  destruct (Workflows.is_dir fs phase_dir) eqn:Hd; simpl negb; cbv iota.
  - split; [|split; [|discriminate]].
    + apply StronglySorted_merge_sort; [apply str_le_trans|apply str_le_total].
    + intros n. rewrite merge_sort_Permutation.
      rewrite list_elem_of_fmap. split.
      * intros (p & -> & Hp).
        apply list_elem_of_In, filter_In in Hp as [Hp Hf].
        apply list_elem_of_In in Hp.
        assert (Hpn : p = phase_dir ++ [name p]).
        { unfold iterdir in Hp. destruct (Workflows.stat fs phase_dir) as [[c|es]|];
            try (apply elem_of_nil in Hp; contradiction).
          apply list_elem_of_fmap in Hp as (e & -> & _).
          rewrite name_snoc. reflexivity. }
        apply andb_true_iff in Hf as [Hf1 Hf2]. apply negb_true_iff in Hf2.
        rewrite <- Hpn. auto.
      * intros (Hp & Hf1 & Hf2). exists (phase_dir ++ [n]).
        rewrite name_snoc. split; [reflexivity|].
        apply list_elem_of_In, filter_In. split; [apply list_elem_of_In, Hp|].
        rewrite name_snoc, Hf1, Hf2. reflexivity.
  - split; [constructor|]. split; [|reflexivity].
    intros n. split; [intros H; apply elem_of_nil in H; contradiction|].
    intros (Hp & _). unfold iterdir, Workflows.is_dir in *.
    destruct (Workflows.stat fs phase_dir) as [[c|es]|];
      try discriminate; apply elem_of_nil in Hp; contradiction.
Qed.

(** X11.  Every name that [list_workflows] returns for a phase directory
    is one that [load_workflow] accepts with that phase: the workflow
    directory is found, so that neither [ValueError] nor
    [FileNotFoundError] is raised. *)
Theorem listed_workflow_resolves (BMAD_WORKFLOWS_DIR : path) (fs : Workflows.node)
    (phase : string) (workflows_dir : option path) (n : string) :
  n ∈ list_workflows BMAD_WORKFLOWS_DIR fs phase workflows_dir ->
  Workflows.resolve_workflow_dir BMAD_WORKFLOWS_DIR fs phase (Some n) workflows_dir
  = Ok (joinpath (joinpath (default BMAD_WORKFLOWS_DIR workflows_dir) phase) n).
Proof.
  intros Hn. unfold Workflows.resolve_workflow_dir. cbv zeta.
  unfold list_workflows in Hn.
  set (phase_dir := joinpath (default BMAD_WORKFLOWS_DIR workflows_dir) phase) in *.
  destruct (Workflows.is_dir fs phase_dir) eqn:Hd; simpl negb in Hn; cbv iota in Hn;
    [|apply elem_of_nil in Hn; contradiction].
  rewrite merge_sort_Permutation in Hn.
  apply list_elem_of_fmap in Hn as (p & -> & Hp).
  apply list_elem_of_In, filter_In in Hp as [Hp Hf].
  apply list_elem_of_In in Hp. apply andb_true_iff in Hf as [Hf _].
  assert (Hpn : p = phase_dir ++ [name p]).
  { unfold iterdir in Hp. destruct (Workflows.stat fs phase_dir) as [[c|es]|];
      try (apply elem_of_nil in Hp; contradiction).
    apply list_elem_of_fmap in Hp as (e & -> & _).
    rewrite name_snoc. reflexivity. }
  assert (Hdir : Workflows.is_dir fs (joinpath phase_dir (name p)) = true).
  { destruct (joinpath_cases phase_dir (name p)) as [->| ->];
      [exact Hd|rewrite <- Hpn; exact Hf]. }
  rewrite Hdir. reflexivity.
Qed.

Lemma listed_workflow_resolves_witness :
  list_workflows [] markdown_workflows "quick-flow" None
  = ["quick-dev"; "quick-spec"]
  /\ Workflows.resolve_workflow_dir [] markdown_workflows "quick-flow"
       (Some "quick-spec") None
     = Ok ["quick-flow"; "quick-spec"].
Proof.
  split; [reflexivity|].
  apply (listed_workflow_resolves [] markdown_workflows "quick-flow" None
           "quick-spec").
  right. left.
Defined.

(** ** What a reference resolves to *)

Lemma prefix_slash_false (c : ascii) (t : string) :
  c <> "/"%char -> String.prefix "/" (String c t) = false.
Proof.
  intros Hc.
  change (String.prefix "/" (String c t))
    with (if ascii_dec "/" c then String.prefix "" t else false).
  destruct (ascii_dec "/" c) as [E|E]; [|reflexivity].
  exfalso. apply Hc. symmetry. exact E.
Qed.

(** What follows the last slash holds no slash. *)
Lemma rsplit_last_no_slash (s : string) :
  contains "/" (Workflows.rsplit_last s) = false.
Proof.
  induction s as [|c t IH]; [reflexivity|].
  simpl Workflows.rsplit_last.
  destruct (contains "/" t) eqn:Ht; [exact IH|].
  case_bool_decide as Hc; [exact Ht|].
  change (contains "/" (String c t))
    with (String.prefix "/" (String c t) || contains "/" t).
  rewrite (prefix_slash_false c t Hc), Ht. reflexivity.
Qed.

Lemma convention_names_no_slash (key n : string) :
  n ∈ Workflows.convention_names key -> contains "/" n = false.
Proof.
  unfold Workflows.convention_names. intros H.
  repeat case_bool_decide;
    repeat (apply elem_of_cons in H as [->|H]; [reflexivity|]);
    apply elem_of_nil in H; contradiction.
Qed.

Lemma resolve_yaml_keys_exists (fs : Workflows.node) (d : path)
    (data : gmap string Workflows.pyval) (keys : list string) (p : path) :
  Workflows.resolve_yaml_keys fs d data keys = Some p ->
  Workflows.exists_ fs p = true
  /\ exists n, contains "/" n = false /\ p = joinpath d n.
Proof.
  induction keys as [|key rest IH]; simpl; [discriminate|].
  destruct (data !! key) as [[q|[| | |ref| |]]|]; try exact IH.
  destruct (truthy ref); [|exact IH].
  destruct (Workflows.exists_ fs (joinpath d _)) eqn:He; [|exact IH].
  intros [= <-]. split; [exact He|].
  destruct (contains "/" ref) eqn:Hs; eauto using rsplit_last_no_slash.
Qed.

Lemma first_existing_exists (fs : Workflows.node) (d : path)
    (names : list string) (p : path) :
  Workflows.first_existing fs d names = Some p ->
  Workflows.exists_ fs p = true /\ exists n, n ∈ names /\ p = joinpath d n.
Proof.
  induction names as [|n rest IH]; simpl; [discriminate|].
  destruct (Workflows.exists_ fs (joinpath d n)) eqn:He.
  - intros [= <-]. split; [exact He|]. exists n. split; [left|reflexivity].
  - intros H. destruct (IH H) as (Hex & m & Hm & ->).
    split; [exact Hex|]. exists m. split; [right; exact Hm|reflexivity].
Qed.

Lemma resolve_convention_exists (fs : Workflows.node) (d : path)
    (keys : list string) (p : path) :
  Workflows.resolve_convention fs d keys = Some p ->
  Workflows.exists_ fs p = true
  /\ exists n, contains "/" n = false /\ p = joinpath d n.
Proof.
  induction keys as [|key rest IH]; simpl; [discriminate|].
  destruct (Workflows.first_existing fs d (Workflows.convention_names key))
    as [q|] eqn:E; [|exact IH].
  intros [= <-]. destruct (first_existing_exists _ _ _ _ E) as (Hex & n & Hn & ->).
  split; [exact Hex|]. exists n. split; [|reflexivity].
  eapply convention_names_no_slash, Hn.
Qed.

(** The matches of a pattern are entries that the directory lists. *)
Lemma glob_listed (fs : Workflows.node) (d : path) (key ext : string) (p : path) :
  p ∈ Workflows.glob fs d key ext -> p ∈ iterdir fs d.
Proof.
  unfold Workflows.glob, iterdir. intros Hp.
  destruct (Workflows.stat fs d) as [[c|es]|] eqn:Hd;
    try (apply elem_of_nil in Hp; contradiction).
  apply list_elem_of_fmap in Hp as (n & -> & Hn).
  apply list_elem_of_In, filter_In in Hn as [Hn _].
  apply in_map_iff in Hn as (e & <- & He).
  apply list_elem_of_fmap. exists e. split; [reflexivity|].
  apply list_elem_of_In, He.
Qed.

Lemma glob_candidates_listed (fs : Workflows.node) (d : path)
    (keys : list string) (p : path) :
  p ∈ glob_candidates fs d keys -> p ∈ iterdir fs d.
Proof.
  unfold glob_candidates. intros Hp.
  apply list_elem_of_In, in_flat_map in Hp as (key & _ & Hp).
  apply list_elem_of_In, elem_of_app in Hp as [Hp|Hp];
    eapply glob_listed, Hp.
Qed.

Lemma resolve_yaml_keys_None (fs : Workflows.node) (d : path)
    (data : gmap string Workflows.pyval) (keys : list string) :
  Workflows.resolve_yaml_keys fs d data keys = None ->
  forall key ref, key ∈ keys -> data !! key = Some (py_str_value ref) ->
    truthy ref = true ->
    Workflows.exists_ fs
      (joinpath d (if contains "/" ref then Workflows.rsplit_last ref else ref))
    = false.
Proof.
  induction keys as [|k rest IH]; intros H key ref Hin Hk Ht.
  - apply elem_of_nil in Hin. contradiction.
  - simpl in H. apply elem_of_cons in Hin as [->|Hin].
    + unfold py_str_value in Hk. rewrite Hk, Ht in H.
      destruct (Workflows.exists_ fs _); [discriminate|reflexivity].
    + apply (IH) with (key := key); try assumption.
      destruct (data !! k) as [[q|[| | |r| |]]|]; try exact H.
      destruct (truthy r); [|exact H].
      destruct (Workflows.exists_ fs _); [discriminate|exact H].
Qed.

Lemma first_existing_None (fs : Workflows.node) (d : path) (names : list string) :
  Workflows.first_existing fs d names = None ->
  forall n, n ∈ names -> Workflows.exists_ fs (joinpath d n) = false.
Proof.
  induction names as [|m rest IH]; intros H n Hin.
  - apply elem_of_nil in Hin. contradiction.
  - simpl in H. destruct (Workflows.exists_ fs (joinpath d m)) eqn:E; [discriminate|].
    apply elem_of_cons in Hin as [->|Hin]; [exact E|auto].
Qed.

Lemma resolve_convention_None (fs : Workflows.node) (d : path) (keys : list string) :
  Workflows.resolve_convention fs d keys = None ->
  forall key n, key ∈ keys -> n ∈ Workflows.convention_names key ->
    Workflows.exists_ fs (joinpath d n) = false.
Proof.
  induction keys as [|k rest IH]; intros H key n Hin Hn.
  - apply elem_of_nil in Hin. contradiction.
  - simpl in H.
    destruct (Workflows.first_existing fs d (Workflows.convention_names k)) eqn:E;
      [discriminate|].
    apply elem_of_cons in Hin as [->|Hin]; [|eauto].
    eapply first_existing_None; eassumption.
Qed.

(** X12.  What [_resolve_ref] returns comes from one of two places.
    Either it was found by a reference of the data or by a conventional
    name: then the code has tested that it exists, and it is the workflow
    directory joined with one name that holds no slash, so never a path
    further down, whatever directories the reference spells.  Or it is
    the first match of the patterns, an entry that the workflow directory
    lists, taken without a test.  And [_resolve_ref] returns nothing only
    when there is nothing to find: no reference of the data names an
    entry, no conventional name exists, and no pattern matches. *)
Theorem resolved_path_exists (fs : Workflows.node) (d : path)
    (data : gmap string Workflows.pyval) (keys : list string) :
  (forall p, Workflows._resolve_ref fs d data keys = Some p ->
     (Workflows.exists_ fs p = true
      /\ exists n, contains "/" n = false /\ p = joinpath d n)
     \/ (head (glob_candidates fs d keys) = Some p /\ p ∈ iterdir fs d))
  /\ (Workflows._resolve_ref fs d data keys = None ->
      (forall key ref, key ∈ keys -> data !! key = Some (py_str_value ref) ->
         truthy ref = true ->
         Workflows.exists_ fs
           (joinpath d (if contains "/" ref then Workflows.rsplit_last ref else ref))
         = false)
      /\ (forall key n, key ∈ keys -> n ∈ Workflows.convention_names key ->
            Workflows.exists_ fs (joinpath d n) = false)
      /\ glob_candidates fs d keys = []).
Proof.
  unfold Workflows._resolve_ref. split.
  - intros p H.
    destruct (Workflows.resolve_yaml_keys fs d data keys) as [q|] eqn:E1.
    { injection H as <-. left. eapply resolve_yaml_keys_exists, E1. }
    destruct (Workflows.resolve_convention fs d keys) as [q|] eqn:E2.
    { injection H as <-. left. eapply resolve_convention_exists, E2. }
    right. rewrite resolve_glob_candidates in H. split; [exact H|].
    apply (glob_candidates_listed fs d keys).
    destruct (glob_candidates fs d keys) as [|q l]; [discriminate|].
    injection H as <-. left.
  - intros H.
    destruct (Workflows.resolve_yaml_keys fs d data keys) eqn:E1; [discriminate|].
    destruct (Workflows.resolve_convention fs d keys) eqn:E2; [discriminate|].
    rewrite resolve_glob_candidates in H.
    split; [apply resolve_yaml_keys_None, E1|].
    split; [apply resolve_convention_None, E2|].
    destruct (glob_candidates fs d keys); [reflexivity|discriminate].
Qed.

Lemma resolved_path_exists_witness :
  Workflows._resolve_ref prd_workflows ["2-planning"; "create-prd"]
    {[ "validation" := py_str_value "{installed_path}/docs/instructions.md" ]}
    ["validation"; "checklist"]
  = Some ["2-planning"; "create-prd"; "instructions.md"]
  /\ Workflows.exists_ prd_workflows ["2-planning"; "create-prd"; "instructions.md"]
     = true
  /\ Workflows._resolve_ref prd_workflows ["2-planning"; "create-prd"] ∅
       ["template"] = None
  /\ Workflows.exists_ prd_workflows ["2-planning"; "create-prd"; "template.md"]
     = false.
Proof.
  split; [reflexivity|].
  destruct (resolved_path_exists prd_workflows ["2-planning"; "create-prd"]
              {[ "validation" := py_str_value "{installed_path}/docs/instructions.md" ]}
              ["validation"; "checklist"]) as [Hsome _].
  destruct (resolved_path_exists prd_workflows ["2-planning"; "create-prd"] ∅
              ["template"]) as [_ Hnone].
  split.
  - destruct (Hsome _ eq_refl) as [[Hex _]|[Hg _]]; [exact Hex|discriminate Hg].
  - split; [reflexivity|].
    destruct (Hnone eq_refl) as (_ & Hconv & _).
    apply (Hconv "template" "template.md"); repeat constructor.
Defined.

(** *** References with directories *)

Lemma contains_slash_app (pre n : string) :
  contains "/" (pre +:+ "/" +:+ n) = true.
Proof.
  induction pre as [|c pre IH].
  - rewrite app_Empty, app_String, app_Empty. destruct n; reflexivity.
  - rewrite app_String.
    change (contains "/" (String c (pre +:+ "/" +:+ n)))
      with (String.prefix "/" (String c (pre +:+ "/" +:+ n))
            || contains "/" (pre +:+ "/" +:+ n)).
    rewrite IH. apply orb_true_r.
Qed.

Lemma rsplit_last_app (pre n : string) :
  contains "/" n = false ->
  Workflows.rsplit_last (pre +:+ "/" +:+ n) = n.
Proof.
  intros Hn. induction pre as [|c pre IH].
  - rewrite app_Empty, app_String, app_Empty. simpl Workflows.rsplit_last.
    rewrite Hn. reflexivity.
  - rewrite app_String. simpl Workflows.rsplit_last.
    rewrite contains_slash_app. exact IH.
Qed.

(** X13.  A reference of the data that spells directories, like
    [{installed_path}/checklist.md], is cut down to what follows its last
    slash: when the workflow directory holds an entry of that name, the
    reference resolves to it, whatever the directories were; when it holds
    none, the reference counts for nothing and the resolution goes on as
    if the data had no key at all. *)
Theorem explicit_reference_strips_prefix (fs : Workflows.node) (d : path)
    (data : gmap string Workflows.pyval) (key : string) (rest : list string)
    (pre n : string) :
  data !! key = Some (py_str_value (pre +:+ "/" +:+ n)) ->
  contains "/" n = false ->
  (Workflows.exists_ fs (joinpath d n) = true ->
   Workflows._resolve_ref fs d data (key :: rest) = Some (joinpath d n))
  /\ (Workflows.exists_ fs (joinpath d n) = false ->
      Workflows._resolve_ref fs d data [key] = Workflows._resolve_ref fs d ∅ [key]).
Proof.
  intros Hk Hn. unfold Workflows._resolve_ref, py_str_value in *.
  assert (Ht : truthy (pre +:+ "/" +:+ n) = true).
  { destruct pre; reflexivity. }
  split; intros He; simpl Workflows.resolve_yaml_keys;
    rewrite Hk, Ht, contains_slash_app, (rsplit_last_app pre n Hn), He;
    reflexivity.
Qed.

Lemma explicit_reference_strips_prefix_witness :
  Workflows._resolve_ref prd_workflows ["2-planning"; "create-prd"]
    {[ "validation" := py_str_value "{installed_path}/docs/instructions.md" ]}
    ["validation"; "checklist"]
  = Some ["2-planning"; "create-prd"; "instructions.md"].
Proof.
  apply (explicit_reference_strips_prefix prd_workflows
           ["2-planning"; "create-prd"]
           {[ "validation" := py_str_value "{installed_path}/docs/instructions.md" ]}
           "validation" ["checklist"] "{installed_path}/docs" "instructions.md");
    reflexivity.
Defined.

(** ** The readers of a loaded workflow *)

(** The result of [load_workflow] is the loaded definition with the three
    path entries set from it. *)
Lemma load_workflow_entries
    (yaml_safe_load : string -> result Workflows.yaml_value)
    (BMAD_WORKFLOWS_DIR : path) (fs : Workflows.node) (phase : string)
    (workflow_name : option string) (workflows_dir : option path)
    (w : gmap string Workflows.pyval) :
  Workflows.load_workflow yaml_safe_load BMAD_WORKFLOWS_DIR fs phase
    workflow_name workflows_dir = Ok w ->
  exists d data,
    Workflows.resolve_workflow_dir BMAD_WORKFLOWS_DIR fs phase workflow_name
      workflows_dir = Ok d
    /\ Workflows.load_definition yaml_safe_load fs d = Ok data
    /\ w !! "instructions_path"
       = Some (Workflows.of_optional_path
                 (Workflows._resolve_ref fs d data ["instructions"]))
    /\ w !! "checklist_path"
       = Some (Workflows.of_optional_path
                 (Workflows._resolve_ref fs d data ["validation"; "checklist"]))
    /\ w !! "template_path"
       = Some (Workflows.of_optional_path
                 (Workflows._resolve_ref fs d data ["template"]))
    /\ w !! "workflow_content" = data !! "workflow_content".
Proof.
  unfold Workflows.load_workflow. intros H.
  destruct (Workflows.resolve_workflow_dir _ _ _ _ _) as [d|e] eqn:Hd;
    simpl in H; [|discriminate].
  destruct (Workflows.load_definition yaml_safe_load fs d) as [data|e] eqn:Hdata;
    simpl in H; [|discriminate].
  injection H as <-. exists d, data. split; [reflexivity|]. split; [exact Hdata|].
  rewrite lookup_insert_ne, lookup_insert_ne, lookup_insert_eq by discriminate.
  rewrite lookup_insert_ne, lookup_insert_eq by discriminate.
  rewrite lookup_insert_eq.
  rewrite !lookup_insert_ne by discriminate.
  split; [reflexivity|]. split; [|split; [|reflexivity]].
  - do 2 f_equal. apply resolve_ref_ext. intros k Hk.
    apply list_elem_of_In in Hk. simpl in Hk.
    destruct Hk as [<-|[<-|[]]]; rewrite !lookup_insert_ne by discriminate;
      reflexivity.
  - do 2 f_equal. apply resolve_ref_ext. intros k Hk.
    apply list_elem_of_In in Hk. simpl in Hk.
    destruct Hk as [<-|[]]. rewrite !lookup_insert_ne by discriminate.
    reflexivity.
Qed.

(** An entry that holds a resolved reference is a [Path] or [None]: it is
    read when it exists, and no attribute is missing. *)
Lemma read_entry_resolved (fs : Workflows.node) (w : gmap string Workflows.pyval)
    (key : string) (o : option path) :
  w !! key = Some (Workflows.of_optional_path o) ->
  read_entry fs w key
  = match o with
    | Some p =>
        if Workflows.exists_ fs p then
          match Workflows.read_text fs p with
          | Ok text => Returns (Some text)
          | Raise e => Raises (Builtin e)
          end
        else Returns None
    | None => Returns None
    end.
Proof.
  intros Hk. unfold read_entry. rewrite Hk. destruct o; reflexivity.
Qed.

(** X14.  The readers on a workflow that [load_workflow] has just
    returned.  Each reader looks at the path that [_resolve_ref] found in
    the workflow directory for the loaded data, whatever entry of the
    name [checklist_path], [template_path] or [instructions_path] the
    definition file holds: [get_checklist] and [get_template] return the
    text of that path when it exists, and the empty string when it does
    not or when nothing was found; [get_instructions] does the same and
    falls back on the entry [workflow_content] when it is true.  A reader
    raises what reading the path raises, and never [AttributeError]. *)
Theorem readers_on_loaded_workflow
    (yaml_safe_load : string -> result Workflows.yaml_value)
    (BMAD_WORKFLOWS_DIR : path) (fs : Workflows.node) (phase : string)
    (workflow_name : option string) (workflows_dir : option path)
    (w : gmap string Workflows.pyval) :
  Workflows.load_workflow yaml_safe_load BMAD_WORKFLOWS_DIR fs phase
    workflow_name workflows_dir = Ok w ->
  exists d data,
    Workflows.resolve_workflow_dir BMAD_WORKFLOWS_DIR fs phase workflow_name
      workflows_dir = Ok d
    /\ Workflows.load_definition yaml_safe_load fs d = Ok data
    /\ get_checklist fs w
       = match Workflows._resolve_ref fs d data ["validation"; "checklist"] with
         | Some p =>
             if Workflows.exists_ fs p then lift (Workflows.read_text fs p)
             else Returns ""
         | None => Returns ""
         end
    /\ get_template fs w
       = match Workflows._resolve_ref fs d data ["template"] with
         | Some p =>
             if Workflows.exists_ fs p then lift (Workflows.read_text fs p)
             else Returns ""
         | None => Returns ""
         end
    /\ get_instructions fs w
       = match Workflows._resolve_ref fs d data ["instructions"] with
         | Some p =>
             if Workflows.exists_ fs p then
               lift (let* text := Workflows.read_text fs p in
                     Ok (py_str_value text))
             else content_or_empty data
         | None => content_or_empty data
         end
    /\ get_checklist fs w <> Raises AttributeError
    /\ get_template fs w <> Raises AttributeError
    /\ get_instructions fs w <> Raises AttributeError.
Proof.
  intros H.
  destruct (load_workflow_entries _ _ _ _ _ _ _ H)
    as (d & data & Hd & Hdata & Hi & Hc & Ht & Hw).
  exists d, data. split; [exact Hd|]. split; [exact Hdata|].
  pose proof (read_entry_resolved fs _ _ _ Hi) as Ri.
  pose proof (read_entry_resolved fs _ _ _ Hc) as Rc.
  pose proof (read_entry_resolved fs _ _ _ Ht) as Rt.
  unfold get_checklist, get_template, get_instructions, content_or_empty.
  rewrite Ri, Rc, Rt, Hw.
  destruct (Workflows._resolve_ref fs d data ["validation"; "checklist"]) as [pc|];
  destruct (Workflows._resolve_ref fs d data ["template"]) as [pt|];
  destruct (Workflows._resolve_ref fs d data ["instructions"]) as [pi|];
  repeat match goal with
  | |- context [Workflows.exists_ fs ?p] => destruct (Workflows.exists_ fs p)
  end;
  repeat match goal with
  | |- context [Workflows.read_text fs ?p] => destruct (Workflows.read_text fs p)
  end;
  simpl; repeat split; try discriminate;
  destruct (data !! "workflow_content") as [c|]; try discriminate;
  destruct (pyval_truthy c); discriminate.
Qed.

Lemma readers_on_loaded_workflow_witness :
  exists w,
    Workflows.load_workflow prd_yaml [] prd_workflows "prd" None None = Ok w
    /\ get_checklist prd_workflows w = Returns "- [ ] goals"
    /\ get_template prd_workflows w = Returns ""
    /\ get_instructions prd_workflows w = Returns (py_str_value "Write the PRD").
Proof.
  destruct (Workflows.load_workflow prd_yaml [] prd_workflows "prd" None None)
    as [w|e] eqn:E.
  - destruct (readers_on_loaded_workflow _ _ _ _ _ _ _ E)
      as (d & data & Hd & Hdata & Hc & Ht & Hi & _).
    vm_compute in Hd. injection Hd as <-.
    assert (Hx :
      match Workflows.load_definition prd_yaml prd_workflows
              ["2-planning"; "create-prd"] with
      | Ok data =>
          Some (Workflows._resolve_ref prd_workflows ["2-planning"; "create-prd"]
                  data ["validation"; "checklist"],
                Workflows._resolve_ref prd_workflows ["2-planning"; "create-prd"]
                  data ["template"],
                Workflows._resolve_ref prd_workflows ["2-planning"; "create-prd"]
                  data ["instructions"])
      | Raise _ => None
      end
      = Some (Some ["2-planning"; "create-prd"; "checklist.md"], None,
              Some ["2-planning"; "create-prd"; "instructions.md"]))
      by (vm_compute; reflexivity).
    rewrite Hdata in Hx. injection Hx as Hxc Hxt Hxi.
    exists w. split; [reflexivity|].
    rewrite Hc, Ht, Hi, Hxc, Hxt, Hxi. repeat split; reflexivity.
  - apply (f_equal (fun r => match r with Ok _ => true | Raise _ => false end)) in E.
    vm_compute in E. discriminate E.
Defined.

(** X15.  A workflow given as Markdown only: when the workflow directory
    has no [workflow.yaml], its [workflow.md] is a file and no instruction
    file is found there, the workflow loads, and [get_instructions]
    returns the text of [workflow.md], empty or not. *)
Theorem markdown_workflow_instructions
    (yaml_safe_load : string -> result Workflows.yaml_value)
    (BMAD_WORKFLOWS_DIR : path) (fs : Workflows.node) (phase : string)
    (workflow_name : option string) (workflows_dir : option path)
    (d : path) (content : string) :
  Workflows.resolve_workflow_dir BMAD_WORKFLOWS_DIR fs phase workflow_name
    workflows_dir = Ok d ->
  Workflows.exists_ fs (d ++ ["workflow.yaml"]) = false ->
  Workflows.read_text fs (d ++ ["workflow.md"]) = Ok content ->
  Workflows._resolve_ref fs d ∅ ["instructions"] = None ->
  exists w,
    Workflows.load_workflow yaml_safe_load BMAD_WORKFLOWS_DIR fs phase
      workflow_name workflows_dir = Ok w
    /\ w !! "workflow_content" = Some (py_str_value content)
    /\ get_instructions fs w = Returns (py_str_value content).
Proof.
  intros Hd Hyaml Hmd Hnone.
  assert (Hex : Workflows.exists_ fs (d ++ ["workflow.md"]) = true).
  { unfold Workflows.exists_, Workflows.read_text in *.
    destruct (Workflows.stat fs (d ++ ["workflow.md"]));
      [reflexivity|discriminate Hmd]. }
  assert (Hdata : Workflows.load_definition yaml_safe_load fs d
            = Ok (<["workflow_content" := py_str_value content]>
                    {[ "workflow_dir" := Workflows.PPath d ]})).
  { unfold Workflows.load_definition.
    rewrite !joinpath_proper by discriminate.
    rewrite Hyaml, Hex, Hmd. reflexivity. }
  destruct (Workflows.load_workflow yaml_safe_load BMAD_WORKFLOWS_DIR fs phase
              workflow_name workflows_dir) as [w|e] eqn:E.
  - destruct (load_workflow_entries _ _ _ _ _ _ _ E)
      as (d' & data & Hd' & Hdata' & Hi & _ & _ & Hw).
    rewrite Hd in Hd'. injection Hd' as <-.
    rewrite Hdata in Hdata'. injection Hdata' as <-.
    rewrite lookup_insert_eq in Hw.
    rewrite (resolve_ref_ext fs d ∅) in Hi.
    2:{ intros k Hk. apply list_elem_of_In in Hk. simpl in Hk.
        destruct Hk as [<-|[]]. reflexivity. }
    rewrite Hnone in Hi.
    exists w. split; [reflexivity|]. split; [exact Hw|].
    unfold get_instructions, read_entry. rewrite Hi, Hw. simpl.
    destruct content; reflexivity.
  - exfalso. unfold Workflows.load_workflow in E.
    rewrite Hd in E. simpl in E. rewrite Hdata in E. discriminate E.
Qed.

Lemma markdown_workflow_instructions_witness :
  exists w,
    Workflows.load_workflow prd_yaml [] markdown_workflows "quick_spec" None None
    = Ok w
    /\ w !! "workflow_content" = Some (py_str_value "# Quick spec")
    /\ get_instructions markdown_workflows w = Returns (py_str_value "# Quick spec").
Proof.
  apply (markdown_workflow_instructions prd_yaml [] markdown_workflows
           "quick_spec" None None ["quick-flow"; "quick-spec"] "# Quick spec");
    reflexivity.
Defined.

(** ** Personas *)

Lemma removesuffix_self (suffix : string) : removesuffix suffix suffix = "".
Proof.
  destruct suffix; simpl; try case_bool_decide; congruence.
Qed.

Lemma length_append (a b : string) :
  String.length (a +:+ b) = String.length a + String.length b.
Proof. induction a as [|c a IH]; [reflexivity|]. rewrite app_String. simpl. lia. Qed.

Lemma removesuffix_app (suffix a : string) :
  removesuffix suffix (a +:+ suffix) = a.
Proof.
  induction a as [|c a IH].
  - rewrite app_Empty. apply removesuffix_self.
  - rewrite app_String. simpl removesuffix.
    rewrite bool_decide_eq_false_2.
    + rewrite (proj2 (ends_with_app suffix (a +:+ suffix))) by eauto.
      rewrite IH. reflexivity.
    + intros Heq. apply (f_equal String.length) in Heq.
      simpl in Heq. rewrite length_append in Heq. lia.
Qed.

(** The names with the agent suffix are the stems with the suffix added. *)
Lemma agent_name_stem (n stem : string) :
  ends_with _AGENT_SUFFIX n = true /\ removesuffix _AGENT_SUFFIX n = stem
  <-> n = stem +:+ _AGENT_SUFFIX.
Proof.
  split.
  - intros [He <-]. apply ends_with_app in He as [b ->].
    rewrite removesuffix_app. reflexivity.
  - intros ->. split; [apply ends_with_app; eauto|apply removesuffix_app].
Qed.

Lemma load_each_lookup (yaml_safe_load : string -> result Workflows.yaml_value)
    (BMAD_AGENTS_DIR : path) (fs : Workflows.node) (base : path)
    (paths : list path) (personas : gmap string Workflows.yaml_value)
    (stem : string) :
  load_each yaml_safe_load BMAD_AGENTS_DIR fs base paths personas !! stem
  = if existsb (fun p => bool_decide (name p = stem +:+ _AGENT_SUFFIX)) paths
    then match load_persona yaml_safe_load BMAD_AGENTS_DIR fs stem (Some base) with
         | Returns v => Some v
         | Raises _ => personas !! stem
         end
    else personas !! stem.
Proof.
  revert personas. induction paths as [|p rest IH]; intros personas;
    [reflexivity|].
  simpl load_each. simpl existsb.
  destruct (ends_with _AGENT_SUFFIX (name p)) eqn:He.
  - case_bool_decide as Hn.
    + destruct (proj2 (agent_name_stem (name p) stem) Hn) as [_ ->].
      simpl orb.
      destruct (load_persona yaml_safe_load BMAD_AGENTS_DIR fs stem (Some base))
        as [v|e] eqn:Hl; rewrite IH, ?Hl.
      * rewrite lookup_insert_eq. destruct (existsb _ rest); reflexivity.
      * destruct (existsb _ rest); reflexivity.
    + simpl orb.
      assert (Hs : removesuffix _AGENT_SUFFIX (name p) <> stem).
      { intros Hs. apply Hn, agent_name_stem. auto. }
      destruct (load_persona yaml_safe_load BMAD_AGENTS_DIR fs
                  (removesuffix _AGENT_SUFFIX (name p)) (Some base)) as [v|e];
        rewrite IH, ?lookup_insert_ne by exact Hs; reflexivity.
  - rewrite bool_decide_eq_false_2.
    + apply IH.
    + intros Hn. apply agent_name_stem in Hn as [Hn _]. congruence.
Qed.

(** X16.  [get_all_personas] never raises, and it maps a stem to a persona
    exactly when the agents directory lists an entry of that stem with the
    agent suffix and [load_persona] returns that persona for the stem: an
    agent file that fails to load, for whatever reason, is left out and
    stops nothing. *)
Theorem get_all_personas_spec (yaml_safe_load : string -> result Workflows.yaml_value)
    (BMAD_AGENTS_DIR : path) (fs : Workflows.node) (agents_dir : option path)
    (stem : string) (persona : Workflows.yaml_value) :
  let base := default BMAD_AGENTS_DIR agents_dir in
  get_all_personas yaml_safe_load BMAD_AGENTS_DIR fs agents_dir !! stem
  = Some persona
  <-> (base ++ [stem +:+ _AGENT_SUFFIX]) ∈ iterdir fs base
      /\ load_persona yaml_safe_load BMAD_AGENTS_DIR fs stem agents_dir
         = Returns persona.
Proof.
  cbv zeta. unfold get_all_personas.
  set (base := default BMAD_AGENTS_DIR agents_dir).
  assert (Hsame : load_persona yaml_safe_load BMAD_AGENTS_DIR fs stem agents_dir
                  = load_persona yaml_safe_load BMAD_AGENTS_DIR fs stem (Some base))
    by reflexivity.
  rewrite Hsame.
  destruct (Workflows.is_dir fs base) eqn:Hd; simpl negb; cbv iota.
  - rewrite load_each_lookup, lookup_empty.
    assert (Hin : existsb (fun p => bool_decide (name p = stem +:+ _AGENT_SUFFIX))
                    (map (fun n => base ++ [n])
                       (merge_sort str_le (map name (iterdir fs base)))) = true
                  <-> (base ++ [stem +:+ _AGENT_SUFFIX]) ∈ iterdir fs base).
    { rewrite existsb_exists. split.
      - intros (p & Hp & Hn). apply bool_decide_eq_true in Hn.
        apply list_elem_of_In, list_elem_of_fmap in Hp as (n & -> & Hp).
        rewrite name_snoc in Hn. subst n.
        rewrite merge_sort_Permutation in Hp.
        apply list_elem_of_fmap in Hp as (q & Hq & Hp).
        assert (Hqn : q = base ++ [name q]).
        { unfold iterdir in Hp.
          destruct (Workflows.stat fs base) as [[c|es]|];
            try (apply elem_of_nil in Hp; contradiction).
          apply list_elem_of_fmap in Hp as (e & -> & _).
          rewrite name_snoc. reflexivity. }
        rewrite Hq, <- Hqn. exact Hp.
      - intros Hp. exists (base ++ [stem +:+ _AGENT_SUFFIX]). split.
        + apply list_elem_of_In, list_elem_of_fmap.
          exists (stem +:+ _AGENT_SUFFIX). split; [reflexivity|].
          rewrite merge_sort_Permutation. apply list_elem_of_fmap.
          exists (base ++ [stem +:+ _AGENT_SUFFIX]).
          rewrite name_snoc. auto.
        + rewrite name_snoc. apply bool_decide_eq_true. reflexivity. }
    destruct (existsb _ _).
    + destruct (load_persona yaml_safe_load BMAD_AGENTS_DIR fs stem (Some base))
        as [v|e].
      * split; [intros [= ->]; split; [apply Hin|]; reflexivity
               |intros [_ [= ->]]; reflexivity].
      * split; [discriminate|intros [_ H]; discriminate H].
    + split; [discriminate|]. intros [Hp _]. apply Hin in Hp. discriminate Hp.
  - rewrite lookup_empty. split; [discriminate|]. intros [Hp _].
    unfold iterdir, Workflows.is_dir in *.
    destruct (Workflows.stat fs base) as [[c|es]|];
      try discriminate; apply elem_of_nil in Hp; contradiction.
Qed.

(** ** Collapsing a text to one line *)

Lemma single_line_app (a b : string) :
  single_line (a +:+ b) <-> single_line a /\ single_line b.
Proof.
  unfold single_line. induction a as [|c a IH].
  - rewrite app_Empty. simpl. split; [auto|tauto].
  - rewrite app_String. simpl. rewrite !Forall_cons, IH. tauto.
Qed.

Lemma single_line_rev_app (cur acc : string) :
  single_line cur -> single_line acc -> single_line (String.rev_app cur acc).
Proof.
  revert acc. induction cur as [|c cur IH]; intros acc Hc Ha; [exact Ha|].
  simpl. unfold single_line in *. simpl in Hc. apply Forall_cons in Hc as [H1 H2].
  apply IH; [exact H2|]. simpl. constructor; assumption.
Qed.

Lemma splitlines_from_single (n : nat) (s cur : string) :
  String.length s <= n ->
  single_line cur -> Forall single_line (splitlines_from cur s).
Proof.
  revert s cur. induction n as [|n IH]; intros s cur Hn Hc.
  - destruct s; [|simpl in Hn; lia]. simpl.
    destruct cur; [constructor|].
    constructor; [|constructor].
    apply single_line_rev_app; [exact Hc|constructor].
  - destruct s as [|c t].
    + simpl. destruct cur; [constructor|].
      constructor; [|constructor].
      apply single_line_rev_app; [exact Hc|constructor].
    + simpl in Hn. simpl splitlines_from.
      assert (Hrev : single_line (String.rev cur))
        by (apply single_line_rev_app; [exact Hc|constructor]).
      assert (Hnil : single_line "") by constructor.
      destruct (is_linebreak c) eqn:Hb.
      * destruct t as [|c' t'].
        -- constructor; [exact Hrev|]. apply IH; [simpl; lia|exact Hnil].
        -- destruct (_ && _); constructor; try exact Hrev;
             apply IH; simpl in *; try lia; exact Hnil.
      * apply IH; [lia|]. unfold single_line in *. simpl.
        constructor; assumption.
Qed.

Lemma splitlines_single (s : string) : Forall single_line (splitlines s).
Proof.
  apply (splitlines_from_single (String.length s)); [lia|constructor].
Qed.

Lemma lstrip_by_single (p : ascii -> bool) (s : string) :
  single_line s -> single_line (lstrip_by p s).
Proof.
  unfold single_line. induction s as [|c t IH]; simpl; [auto|].
  intros H. destruct (p c); [|exact H].
  apply Forall_cons in H as [_ H]. auto.
Qed.

Lemma rstrip_by_single (p : ascii -> bool) (s : string) :
  single_line s -> single_line (rstrip_by p s).
Proof.
  unfold single_line. induction s as [|c t IH]; simpl; [auto|].
  intros H. apply Forall_cons in H as [Hc H]. specialize (IH H).
  destruct (rstrip_by p t).
  - destruct (p c); simpl; constructor; auto.
  - simpl. constructor; assumption.
Qed.

Lemma strip_single (s : string) : single_line s -> single_line (strip s).
Proof. intros H. apply rstrip_by_single, lstrip_by_single, H. Qed.

Lemma join_cons (sep x : string) (xs : list string) :
  xs <> [] -> join sep (x :: xs) = x +:+ sep +:+ join sep xs.
Proof. destruct xs; [contradiction|reflexivity]. Qed.

Lemma join_single (pieces : list string) :
  Forall single_line pieces -> single_line (join " " pieces).
Proof.
  induction 1 as [|x xs Hx Hxs IH]; [constructor|].
  destruct xs as [|y ys]; [exact Hx|].
  rewrite join_cons by discriminate.
  apply single_line_app. split; [exact Hx|].
  apply single_line_app. split; [|exact IH].
  repeat constructor.
Qed.

(** A text without line boundary is its own and only line. *)
Lemma splitlines_from_one (s cur : string) :
  single_line s ->
  splitlines_from cur s
  = if truthy cur || truthy s then [String.rev_app cur s] else [].
Proof.
  revert cur. unfold single_line.
  induction s as [|c t IH]; intros cur H; simpl splitlines_from.
  - destruct cur; reflexivity.
  - apply Forall_cons in H as [Hc H]. rewrite Hc, (IH _ H).
    simpl. rewrite orb_true_r. reflexivity.
Qed.

Lemma splitlines_one (s : string) :
  single_line s -> splitlines s = if truthy s then [s] else [].
Proof.
  intros H. unfold splitlines. rewrite (splitlines_from_one s "" H). reflexivity.
Qed.

(** *** Stripped texts *)

Lemma lstrip_strip (s : string) : lstrip_by isspace (strip s) = strip s.
Proof.
  unfold strip. pose proof (lstrip_by_head isspace s) as Hh.
  destruct (lstrip_by isspace s) as [|c t]; [reflexivity|].
  destruct (rstrip_by_head isspace c t Hh) as [t' ->].
  simpl. rewrite Hh. reflexivity.
Qed.

Lemma lstrip_by_app (p : ascii -> bool) (a b : string) :
  truthy a = true -> lstrip_by p a = a -> lstrip_by p (a +:+ b) = a +:+ b.
Proof.
  intros Ha Hl. pose proof (lstrip_by_head p a) as Hh. rewrite Hl in Hh.
  destruct a as [|c a]; [discriminate|].
  rewrite app_String. simpl. rewrite Hh. reflexivity.
Qed.

Lemma rstrip_by_app (p : ascii -> bool) (a b : string) :
  truthy b = true -> rstrip_by p b = b -> rstrip_by p (a +:+ b) = a +:+ b.
Proof.
  intros Hb Hr. induction a as [|c a IH]; [exact Hr|].
  rewrite app_String. simpl. rewrite IH.
  destruct (a +:+ b) eqn:E; [|reflexivity].
  destruct a; [rewrite app_Empty in E; subst b|]; discriminate.
Qed.

Lemma join_truthy (x : string) (xs : list string) :
  truthy x = true -> truthy (join " " (x :: xs)) = true.
Proof.
  intros Hx. destruct xs; [exact Hx|]. rewrite join_cons by discriminate.
  destruct x; [discriminate|reflexivity].
Qed.

Lemma join_stripped (pieces : list string) :
  Forall (fun x => truthy x = true /\ strip x = x) pieces ->
  strip (join " " pieces) = join " " pieces.
Proof.
  intros H.
  assert (Hl : lstrip_by isspace (join " " pieces) = join " " pieces).
  { destruct H as [|x xs [Hx Hs] _]; [reflexivity|].
    assert (Hlx : lstrip_by isspace x = x) by (rewrite <- Hs; apply lstrip_strip).
    destruct xs; [exact Hlx|]. rewrite join_cons by discriminate.
    apply lstrip_by_app; assumption. }
  assert (Hr : rstrip_by isspace (join " " pieces) = join " " pieces).
  { clear Hl. induction H as [|x xs [Hx Hs] Hxs IH]; [reflexivity|].
    assert (Hrx : rstrip_by isspace x = x) by (rewrite <- Hs; apply strip_rstrip).
    destruct xs as [|y ys]; [exact Hrx|]. rewrite join_cons by discriminate.
    apply Forall_cons in Hxs as Hy. destruct Hy as [[Hy _] _].
    pose proof (join_truthy y ys Hy) as Ht.
    apply rstrip_by_app.
    - reflexivity.
    - apply (rstrip_by_app isspace " "); [exact Ht|exact IH]. }
  unfold strip. rewrite Hl. exact Hr.
Qed.

Lemma clean_lines_pieces (text : string) :
  Forall (fun x => truthy x = true /\ strip x = x) (clean_lines text)
  /\ Forall single_line (clean_lines text).
Proof.
  unfold clean_lines. split.
  - apply Forall_forall. intros x Hx.
    apply list_elem_of_In, filter_In in Hx as [Hx Ht].
    apply in_map_iff in Hx as (l & <- & _). split; [exact Ht|apply strip_idem].
  - pose proof (splitlines_single (strip text)) as H.
    induction H as [|l ls Hl _ IH]; simpl; [constructor|].
    destruct (truthy (strip l)); [|exact IH].
    constructor; [apply strip_single, Hl|exact IH].
Qed.

(** X17.  [_clean_multiline] on a text gives one line: the result holds
    no line boundary, so that it is its own only line, it has no blank at
    either end, and cleaning it again changes nothing. *)
Theorem clean_multiline_one_line (str_of : Workflows.yaml_value -> string)
    (text : string) :
  let cleaned := _clean_multiline str_of (Workflows.YStr text) in
  single_line cleaned
  /\ splitlines cleaned = (if truthy cleaned then [cleaned] else [])
  /\ strip cleaned = cleaned
  /\ _clean_multiline str_of (Workflows.YStr cleaned) = cleaned.
Proof.
  cbv zeta. unfold _clean_multiline.
  destruct (clean_lines_pieces text) as [Hp Hs].
  pose proof (join_single _ Hs) as H1.
  pose proof (splitlines_one _ H1) as H2.
  pose proof (join_stripped _ Hp) as H3.
  split; [exact H1|]. split; [exact H2|]. split; [exact H3|].
  unfold clean_lines at 1. rewrite H3, H2.
  destruct (join " " (clean_lines text)) as [|c r] eqn:E; [reflexivity|].
  simpl truthy. cbv iota. simpl map. rewrite H3. reflexivity.
Qed.

(** ** The track *)

Lemma lower_char_idem (c : ascii) : lower_char (lower_char c) = lower_char c.
Proof. destruct c as [[] [] [] [] [] [] [] []]; reflexivity. Qed.

Lemma lower_idem (s : string) : lower (lower s) = lower s.
Proof.
  induction s as [|c t IH]; [reflexivity|].
  simpl. rewrite lower_char_idem, IH. reflexivity.
Qed.

(** X18.  The track depends on the complexity up to case only: a
    complexity and its lower-case form give the same track.  The track is
    [QUICK_FLOW] exactly for the spellings of [simple], [ENTERPRISE]
    exactly for those of [complex], and [BMAD_METHOD] for every other
    text. *)
Theorem get_bmad_track_by_case (complexity : string) :
  get_bmad_track (lower complexity) = get_bmad_track complexity
  /\ (get_bmad_track complexity = QUICK_FLOW <-> lower complexity = "simple")
  /\ (get_bmad_track complexity = ENTERPRISE <-> lower complexity = "complex")
  /\ (get_bmad_track complexity = BMAD_METHOD
      <-> lower complexity <> "simple" /\ lower complexity <> "complex").
Proof.
  unfold get_bmad_track. rewrite lower_idem. split; [reflexivity|].
  generalize (lower complexity). intros k.
  change (list_to_map
            [("simple", QUICK_FLOW); ("standard", BMAD_METHOD);
             ("complex", ENTERPRISE)] : gmap string BMADTrack)
    with (<["simple" := QUICK_FLOW]>
            (<["standard" := BMAD_METHOD]>
               (<["complex" := ENTERPRISE]> (∅ : gmap string BMADTrack)))).
  destruct (decide (k = "simple")) as [->|H1].
  { rewrite lookup_insert_eq. simpl.
    repeat split; try discriminate; try congruence; tauto. }
  rewrite lookup_insert_ne by congruence.
  destruct (decide (k = "standard")) as [->|H2].
  { rewrite lookup_insert_eq. simpl.
    repeat split; try discriminate; try congruence. }
  rewrite lookup_insert_ne by congruence.
  destruct (decide (k = "complex")) as [->|H3].
  { rewrite lookup_insert_eq. simpl.
    repeat split; try discriminate; try congruence; tauto. }
  rewrite lookup_insert_ne by congruence. rewrite lookup_empty. simpl.
  repeat split; try discriminate; try congruence.
Qed.

(** ** The files of the phases *)

(** X19.  The phase methods and the artifact functions agree on the
    files.  A save that succeeds returns the path of a file that holds the
    content: reading it gives the content with every CR LF and every CR
    turned into LF, the content itself when it holds no CR.  For the types
    [product_brief], [prd] and [architecture] this path is the file the
    phase reports and tests on its next run: [brief_file], [prd_file],
    [arch_file]. *)
Theorem phase_files_saved (fs fs' : store) (spec_dir p : path) (t c : string) :
  save_artifact fs spec_dir t c = Ok (fs', p) ->
  read_text fs' p = Ok (universal_newlines c)
  /\ (contains carriage_return c = false -> read_text fs' p = Ok c)
  /\ (t = "product_brief" -> p = brief_file spec_dir)
  /\ (t = "prd" -> p = prd_file spec_dir)
  /\ (t = "architecture" -> p = arch_file spec_dir).
Proof.
  intros H. rewrite save_artifact_unfold in H.
  destruct (mkdir fs (subdir_path spec_dir (artifact_subdir t))) as [fm|e];
    simpl in H; [|discriminate].
  destruct (is_dir fm (artifact_path spec_dir t)); [discriminate|].
  injection H as <- <-.
  assert (Hj : forall f, f <> "" -> f <> "." ->
            joinpath (joinpath (joinpath spec_dir "bmad") "planning") f
            = ((spec_dir ++ ["bmad"]) ++ ["planning"]) ++ [f]).
  { intros f H1 H2. rewrite !joinpath_proper by (assumption || discriminate).
    reflexivity. }
  assert (Hread : read_text (<[artifact_path spec_dir t := File c]> fm)
                    (artifact_path spec_dir t) = Ok (universal_newlines c)).
  { unfold read_text, stat, artifact_path, bmad_path.
    destruct (_ ++ [artifact_filename t]) as [|x l] eqn:E.
    - apply (f_equal length) in E. rewrite !length_app in E. simpl in E. lia.
    - rewrite lookup_insert_eq. reflexivity. }
  split; [exact Hread|].
  split; [intros Hcr; rewrite Hread, (universal_newlines_id c Hcr); reflexivity|].
  repeat split; intros ->; unfold brief_file, prd_file, arch_file;
    rewrite Hj by discriminate; reflexivity.
Qed.

Lemma phase_files_saved_witness :
  exists fs',
    save_artifact empty_stories_store ["spec"] "prd" "# PRD"
    = Ok (fs', prd_file ["spec"])
    /\ read_text fs' (prd_file ["spec"]) = Ok "# PRD".
Proof.
  destruct (save_artifact empty_stories_store ["spec"] "prd" "# PRD")
    as [[fs' p]|e] eqn:E.
  - destruct (phase_files_saved _ _ _ _ _ _ E) as (_ & Hr & _ & Hp & _).
    specialize (Hp eq_refl). subst p. exists fs'.
    split; [reflexivity|apply Hr; reflexivity].
  - apply (f_equal (fun r => match r with Ok _ => true | Raise _ => false end)) in E.
    vm_compute in E. discriminate E.
Defined.

(** X20.  When the plan builder returns, the plan file is there: the test
    [plan_file.exists()] that the phases make after the call passes, and
    the file holds the serialized plan.  Reading it gives the serialized
    plan as text mode reads it, which is the serialized plan itself when
    it holds no CR, as is the case of what [json.dumps] returns. *)
Theorem plan_file_exists_after (json_dumps : plan -> string)
    (now_isoformat : string) (fs fs' : store) (spec_dir : path) (p : plan) :
  stories_to_implementation_plan json_dumps now_isoformat fs spec_dir
    = Ok (p, fs') ->
  exists_ fs' (plan_file spec_dir) = true
  /\ fs' !! plan_file spec_dir = Some (File (json_dumps p))
  /\ read_text fs' (plan_file spec_dir) = Ok (universal_newlines (json_dumps p))
  /\ (contains carriage_return (json_dumps p) = false ->
      read_text fs' (plan_file spec_dir) = Ok (json_dumps p)).
Proof.
  intros H. rewrite (plan_store_written _ _ _ _ _ _ H).
  unfold plan_file. rewrite joinpath_proper by discriminate.
  assert (Hfile : (<[spec_dir ++ ["implementation_plan.json"]
                     := File (json_dumps p)]> fs : store)
                  !! (spec_dir ++ ["implementation_plan.json"])
                  = Some (File (json_dumps p))) by apply lookup_insert_eq.
  unfold exists_, read_text, stat.
  destruct (spec_dir ++ ["implementation_plan.json"]) as [|x l] eqn:E.
  - apply (f_equal length) in E. rewrite length_app in E. simpl in E. lia.
  - rewrite Hfile. repeat split.
    intros Hcr. rewrite (universal_newlines_id _ Hcr). reflexivity.
Qed.

Lemma plan_file_exists_after_witness :
  exists fs',
    stories_to_implementation_plan (fun _ => "{}") "2026-01-01T00:00:00"
      two_and_one_store ["spec"] = Ok (two_and_one_plan, fs')
    /\ exists_ fs' (plan_file ["spec"]) = true.
Proof.
  destruct (stories_to_implementation_plan (fun _ => "{}") "2026-01-01T00:00:00"
              two_and_one_store ["spec"]) as [[p fs']|e] eqn:E.
  - destruct (plan_file_exists_after _ _ _ _ _ _ E) as [Hex _].
    apply (f_equal (fun r => match r with Ok (p, _) => Some p | Raise _ => None end)) in E.
    vm_compute in E. injection E as <-.
    exists fs'. split; [reflexivity|exact Hex].
  - apply (f_equal (fun r => match r with Ok _ => true | Raise _ => false end)) in E.
    vm_compute in E. discriminate E.
Defined.
